(** * kaptan: the configuration tree and its dotted-path engine

    A shallow embedding of [kaptan/__init__.py] (class [Kaptan]): the
    configuration tree, the dotted-path operations [get], [add], [remove],
    the shallow merge [upsert], handler selection in [import_config], and
    [export].

    Python objects are modelled by the type [pyval]; a [dict] with string
    keys is a [gmap string pyval], so two dicts are equal exactly when they
    have the same entries, as with Python's [==].  Exceptions are values of
    [exn]; an operation that can raise returns a [result].  The methods of
    [Kaptan] mutate the store: they are functions from the store to a result
    and the store afterwards. *)

From Stdlib Require Import ZArith Ascii String.
From stdpp Require Import base option list gmap strings.

Set Warnings "-register-all".
#[local] Open Scope string_scope.
#[local] Open Scope Z_scope.

(** ** Python strings *)

Module PyStr.

(** [key.split('.')]: the pieces between the dots, never an empty list. *)
Fixpoint split (s : string) : list string :=
  match s with
  | EmptyString => [""]
  | String c s' =>
      if Ascii.eqb c "." then "" :: split s'
      else match split s' with
           | [] => [String c ""]
           | w :: ws => String c w :: ws
           end
  end.

(** [s.endswith(suffix)] *)
Definition endswith (s suffix : string) : bool :=
  String.prefix (String.rev suffix) (String.rev s).

(** [needle in s] on two strings: substring test. *)
Fixpoint contains (needle s : string) : bool :=
  String.prefix needle s ||
  match s with
  | EmptyString => false
  | String _ s' => contains needle s'
  end.

Definition is_space (c : ascii) : bool :=
  let n := nat_of_ascii c in
  (Nat.eqb n 32 || (Nat.leb 9 n && Nat.leb n 13))%bool.

Definition digit (c : ascii) : option Z :=
  let n := nat_of_ascii c in
  if (Nat.leb 48 n && Nat.leb n 57)%bool then Some (Z.of_nat n - 48) else None.

Fixpoint lstrip (s : string) : string :=
  match s with
  | String c s' => if is_space c then lstrip s' else s
  | EmptyString => s
  end.

Definition strip (s : string) : string :=
  String.rev (lstrip (String.rev (lstrip s))).

(** The digits of [s] read in base 10 after the prefix already read as
    [acc]; [None] when a character is not a digit. *)
Fixpoint digits (acc : Z) (s : string) : option Z :=
  match s with
  | EmptyString => Some acc
  | String c s' =>
      match digit c with
      | Some d => digits (10 * acc + d) s'
      | None => None
      end
  end.

Definition unsigned (s : string) : option Z :=
  match s with
  | EmptyString => None
  | _ => digits 0 s
  end.

(** [int(s)] for a string: surrounding white space is dropped, one sign
    is allowed, and at least one decimal digit must follow.  ([None]
    stands for [ValueError]; digit grouping with underscores and digits
    outside ASCII are not modelled.) *)
Definition int (s : string) : option Z :=
  match strip s with
  | String "+" s' => unsigned s'
  | String "-" s' => Z.opp <$> unsigned s'
  | s' => unsigned s'
  end.

(** [os.path.splitext(p)[1][1:]] (posixpath): the text after the last
    dot of the last path component, when some character before that dot
    in the component is not a dot; the empty string otherwise. *)
Fixpoint ext_rev (acc : string) (r : string) : string :=
  match r with
  | EmptyString => ""
  | String c r' =>
      if Ascii.eqb c "/" then ""
      else if Ascii.eqb c "." then
        (fix has_name (q : string) : string :=
           match q with
           | EmptyString => ""
           | String d q' =>
               if Ascii.eqb d "/" then ""
               else if Ascii.eqb d "." then has_name q'
               else acc
           end) r'
      else ext_rev (String c acc) r'
  end.

Definition splitext_ext (p : string) : string :=
  ext_rev "" (String.rev p).

End PyStr.

(** ** Python objects and exceptions *)

(** The values a configuration tree is made of: [None], booleans, integers,
    strings, lists and dicts with string keys.  A [dict] is the only
    [Mapping]; a [list] and a [str] are both [Sequence]s for
    [collections.Sequence]. *)
Inductive pyval : Type :=
  | VNone
  | VBool (b : bool)
  | VInt (z : Z)
  | VStr (s : string)
  | VList (l : list pyval)
  | VDict (m : gmap string pyval).

(** Exceptions by class.  [KeyError], [RuntimeError] and [IOError] carry the
    argument the code gives them; the message texts of the other classes
    are not modelled ([get] re-raises [ValueError] and [IndexError] with a
    message of its own, the class unchanged). *)
Inductive exn : Type :=
  | KeyError (key : pyval)
  | ValueError
  | IndexError
  | TypeError
  | AttributeError
  | RuntimeError (msg : string)
  | IOError (msg : string).

Inductive result (A : Type) : Type :=
  | Ok (a : A)
  | Err (e : exn).
Arguments Ok {A} a.
Arguments Err {A} e.

Definition rbind {A B} (r : result A) (f : A -> result B) : result B :=
  match r with
  | Ok a => f a
  | Err e => Err e
  end.

Notation "'try!' x := r 'in' k" := (rbind r (fun x => k))
  (at level 10, x name, r at level 100, k at level 200).

Definition isinstance_Mapping (v : pyval) : bool :=
  match v with VDict _ => true | _ => false end.

Definition isinstance_Sequence (v : pyval) : bool :=
  match v with VList _ | VStr _ => true | _ => false end.

Definition isinstance_list (v : pyval) : bool :=
  match v with VList _ => true | _ => false end.

(** [isinstance(v, int)]: [bool] is a subclass of [int]. *)
Definition isinstance_int (v : pyval) : bool :=
  match v with VInt _ | VBool _ => true | _ => false end.

(** The integer an object stands for when it is used as an index. *)
Definition as_index (v : pyval) : option Z :=
  match v with
  | VInt z => Some z
  | VBool b => Some (if b then 1 else 0)
  | _ => None
  end.

(** The position a sequence of length [len] gives to index [i]: a negative
    index counts from the end; [None] when it is out of range. *)
Definition norm_index (len : nat) (i : Z) : option nat :=
  let j := if i <? 0 then i + Z.of_nat len else i in
  if (0 <=? j) && (j <? Z.of_nat len) then Some (Z.to_nat j) else None.

(** The items of a [str], each a string of one character. *)
Definition str_items (s : string) : list pyval :=
  (fun c => VStr (String c EmptyString)) <$> list_ascii_of_string s.

(** [obj[key]] *)
Definition getitem (obj key : pyval) : result pyval :=
  match obj with
  | VDict m =>
      match key with
      | VStr k => match m !! k with Some v => Ok v | None => Err (KeyError key) end
      | VList _ | VDict _ => Err TypeError
      | _ => Err (KeyError key)
      end
  | VList l =>
      match as_index key with
      | Some i =>
          match norm_index (length l) i with
          | Some n => match l !! n with Some v => Ok v | None => Err IndexError end
          | None => Err IndexError
          end
      | None => Err TypeError
      end
  | VStr s =>
      match as_index key with
      | Some i =>
          match norm_index (String.length s) i with
          | Some n => match str_items s !! n with Some v => Ok v | None => Err IndexError end
          | None => Err IndexError
          end
      | None => Err TypeError
      end
  | _ => Err TypeError
  end.

(** [obj[key] = v] for a string [key]: the object after the assignment. *)
Definition setitem (obj : pyval) (key : string) (v : pyval) : result pyval :=
  match obj with
  | VDict m => Ok (VDict (<[key := v]> m))
  | _ => Err TypeError
  end.

(** [del obj[key]] for a string [key]. *)
Definition delitem (obj : pyval) (key : string) : result pyval :=
  match obj with
  | VDict m =>
      match m !! key with
      | Some _ => Ok (VDict (delete key m))
      | None => Err (KeyError (VStr key))
      end
  | _ => Err TypeError
  end.

(** [key in obj] for a string [key]: a key of a dict, an item of a list, a
    substring of a string. *)
Definition contains (key : string) (obj : pyval) : result bool :=
  match obj with
  | VDict m => Ok (bool_decide (is_Some (m !! key)))
  | VList l =>
      Ok (existsb (fun x => match x with VStr s => String.eqb s key | _ => false end) l)
  | VStr s => Ok (PyStr.contains key s)
  | _ => Err TypeError
  end.

(** [l.pop(index)]: the list without the item at that index. *)
Definition list_pop (l : list pyval) (index : Z) : result (list pyval) :=
  match norm_index (length l) index with
  | Some n => Ok (delete n l)
  | None => Err IndexError
  end.

(** ** Handlers *)

Inductive Handler : Type :=
  | DictHandler
  | PyFileHandler
  | IniHandler
  | JsonHandler
  | YamlHandler.

Definition HANDLER_EXT : gmap string string :=
  list_to_map
    [("ini", "ini"); ("conf", "ini"); ("yaml", "yaml"); ("yml", "yaml");
     ("json", "json"); ("py", "file")].

Definition HANDLER_MAP : gmap string Handler :=
  list_to_map
    [("json", JsonHandler); ("dict", DictHandler); ("yaml", YamlHandler);
     ("file", PyFileHandler); ("ini", IniHandler)].

(** What the store takes from outside: the file system, and the [load] and
    [dump] of the handlers for JSON, YAML, INI and Python files (the modules
    under [kaptan/handlers]), which are functions of their argument. *)
Class Env : Type := {
  isfile : string -> bool;
  read : string -> result string;
  abspath : string -> string;
  format_load : Handler -> pyval -> result pyval;
  format_dump : Handler -> pyval -> result pyval;
}.

(** An environment with no file, and whose format handlers reject every
    input; used to run the store on concrete trees. *)
Definition no_files : Env := {|
  isfile := fun _ => false;
  read := fun p => Err (IOError p);
  abspath := fun p => String "/" p;
  format_load := fun _ _ => Err ValueError;
  format_dump := fun _ _ => Err ValueError;
|}.

(** An environment with the files [conf.json], [settings.py] and
    [/settings.py], where every path is made absolute by a slash in front
    and the format handlers load any input as the list of that one item;
    used to run [import_config] on files. *)
Definition some_files : Env := {|
  isfile := fun p =>
    String.eqb p "conf.json" || String.eqb p "settings.py" || String.eqb p "/settings.py";
  read := fun p => Ok "{}";
  abspath := fun p => String "/" p;
  format_load := fun _ data => Ok (VList [data]);
  format_dump := fun _ data => Ok data;
|}.

(** ** The store *)

Record Kaptan : Type := {
  configuration_data : pyval;
  handler : option Handler;
}.

(** What a method that ends in [return self] returns. *)
Inductive Self : Type := self.

(** What [import_config] is given: a dict, or a string (a path or raw
    text). *)
Inductive config_source : Type :=
  | SrcDict (d : gmap string pyval)
  | SrcStr (s : string).

(** A method of [Kaptan]: from the store to what the call returns or
    raises, and the store after the call. *)
Definition M (A : Type) : Type := Kaptan -> result A * Kaptan.

Definition ret {A} (a : A) : M A := fun st => (Ok a, st).

Definition raise {A} (e : exn) : M A := fun st => (Err e, st).

Definition lift {A} (r : result A) : M A := fun st => (r, st).

Definition bind {A B} (m : M A) (k : A -> M B) : M B :=
  fun st =>
    match m st with
    | (Ok a, st') => k a st'
    | (Err e, st') => (Err e, st')
    end.

(** [try: m except: h] *)
Definition try_except {A} (m : M A) (h : exn -> M A) : M A :=
  fun st =>
    match m st with
    | (Ok a, st') => (Ok a, st')
    | (Err e, st') => h e st'
    end.

Notation "'do!' x := m 'in' k" := (bind m (fun x => k))
  (at level 10, x name, m at level 100, k at level 200).

Definition get_data : M pyval := fun st => (Ok (configuration_data st), st).

Definition set_data (d : pyval) : M unit :=
  fun st => (Ok tt, {| configuration_data := d; handler := handler st |}).

Definition get_handler : M (option Handler) := fun st => (Ok (handler st), st).

Definition set_handler (h : Handler) : M unit :=
  fun st => (Ok tt, {| configuration_data := configuration_data st; handler := Some h |}).

(** [Kaptan(handler)] *)
Definition __init__ (handler : option string) : result Kaptan :=
  match handler with
  | None | Some EmptyString => Ok {| configuration_data := VDict ∅; handler := None |}
  | Some name =>
      match HANDLER_MAP !! name with
      | Some h => Ok {| configuration_data := VDict ∅; handler := Some h |}
      | None => Err (KeyError (VStr name))
      end
  end.

(** [upsert]: [dict.update] with one entry; only a dict has [update]. *)
Definition upsert (key : string) (value : pyval) : M Self :=
  do! data := get_data in
  match data with
  | VDict m => do! _ := set_data (VDict (<[key := value]> m)) in ret self
  | _ => raise AttributeError
  end.

(** *** Reading a path *)

(** The loop of [_get] from the node [current_data] over the chunks left. *)
Fixpoint _get_loop (current_data : pyval) (chunks : list string) : result pyval :=
  match chunks with
  | [] => Ok current_data
  | chunk :: chunks' =>
      if isinstance_Mapping current_data then
        match getitem current_data (VStr chunk) with
        | Ok v => _get_loop v chunks'
        | Err e => Err e
        end
      else if isinstance_Sequence current_data then
        match PyStr.int chunk with
        | Some i =>
            match getitem current_data (VInt i) with
            | Ok v => _get_loop v chunks'
            | Err e => Err e
            end
        | None => Err ValueError
        end
      else Ok current_data
  end.

Definition _get (key : string) : M pyval :=
  do! current_data := get_data in
  lift (_get_loop current_data (PyStr.split key)).

(** The inner [except] clauses of [get]. *)
Definition get_reraise (key : string) (e : exn) : M pyval :=
  match e with
  | KeyError _ => raise (KeyError (VStr key))
  | ValueError => raise ValueError
  | IndexError => raise IndexError
  | _ => raise e
  end.

(** The outer [except (KeyError, ValueError, IndexError)] clause of [get];
    [default] is [None] for the sentinel. *)
Definition get_default (default : option pyval) (e : exn) : M pyval :=
  match e with
  | KeyError _ | ValueError | IndexError =>
      match default with
      | Some d => ret d
      | None => raise e
      end
  | _ => raise e
  end.

(** *** Writing a path

    [add] and [remove] walk down from the root and change a dict or a list
    in place.  The functions below return the node they were given as it is
    after the statements have run, with the exception raised, if any; a
    change below a key is written back under that key.  (The tree is taken
    to be a tree: no dict or list is reachable along two paths.  Where one
    object sits under two keys, the code changes it under both; the
    properties below speak of the path that is written and read back, and
    of calls that raise, and say nothing of other paths.) *)

Definition effect : Type := pyval * option exn.

(** The node [parent] once the node under [chunk] has become [child]. *)
Definition write_back (parent : pyval) (chunk : string) (child : pyval) : pyval :=
  match parent with
  | VDict m => VDict (<[chunk := child]> m)
  | _ => parent
  end.

(** The last [try] of [add], on the node the walk ended at. *)
Definition add_target (current_data : pyval) (new_key : string) (value : pyval)
    (replace is_key_exist : bool) : effect :=
  let body : effect :=
    if replace then
      match setitem current_data new_key value with
      | Ok d => (d, None)
      | Err e => (current_data, Some e)
      end
    else
      match getitem current_data (VStr new_key) with
      | Err e => (current_data, Some e)
      | Ok (VList l) => (write_back current_data new_key (VList (l ++ [value])), None)
      | Ok _ =>
          if is_key_exist
          then (current_data, Some (RuntimeError ("Key " ++ new_key ++ " already exist")))
          else (current_data, None)
      end
  in
  match body with
  | (d, Some (KeyError _)) =>
      match setitem d new_key value with
      | Ok d' => (d', None)
      | Err e => (d, Some e)
      end
  | _ => body
  end.

(** One turn of the [for] loop of [add] at the node [current_data]: the
    node afterwards, the node the loop goes on with, and [is_key_exist]. *)
Definition add_step (current_data : pyval) (chunk new_key : string)
    (replace is_key_exist : bool) : result (pyval * pyval * bool) :=
  let body :=
    try! child := getitem current_data (VStr chunk) in
    try! found := (if negb replace then contains new_key child else Ok false) in
    Ok (current_data, child, if found then true else is_key_exist)
  in
  match body with
  | Err (KeyError _) =>
      try! d := setitem current_data chunk (VDict ∅) in
      try! child := getitem d (VStr chunk) in
      Ok (d, child, is_key_exist)
  | _ => body
  end.

Fixpoint add_loop (current_data : pyval) (keys : list string) (new_key : string)
    (value : pyval) (replace is_key_exist : bool) : effect :=
  match keys with
  | [] => add_target current_data new_key value replace is_key_exist
  | chunk :: keys' =>
      match add_step current_data chunk new_key replace is_key_exist with
      | Err e => (current_data, Some e)
      | Ok (d, child, is_key_exist') =>
          let '(child', raised) := add_loop child keys' new_key value replace is_key_exist' in
          (write_back d chunk child', raised)
      end
  end.

Definition add (key : string) (value : pyval) (replace : bool) : M Self :=
  fun st =>
    let current_data := configuration_data st in
    let keys := PyStr.split key in
    let new_key := List.hd EmptyString keys in
    let is_key_exist := false in
    let '(new_key, walked) :=
      if (1 <? length keys)%nat
      then (List.last keys EmptyString, List.removelast keys)
      else (new_key, [])
    in
    let '(data, raised) := add_loop current_data walked new_key value replace is_key_exist in
    (match raised with Some e => Err e | None => Ok self end,
     {| configuration_data := data; handler := handler st |}).

(** The [if] that ends [remove], on the node the walk ended at:
    [as_index index] is [Some i] exactly when [isinstance(index, int)]. *)
Definition remove_target (current_data : pyval) (exact_key : string) (index : pyval) : effect :=
  let popped : result (option (list pyval)) :=
    match as_index index with
    | Some i =>
        try! x := getitem current_data (VStr exact_key) in
        match x with
        | VList l => try! l' := list_pop l i in Ok (Some l')
        | _ => Ok None
        end
    | None => Ok None
    end
  in
  match popped with
  | Err e => (current_data, Some e)
  | Ok (Some l') => (write_back current_data exact_key (VList l'), None)
  | Ok None =>
      match delitem current_data exact_key with
      | Ok d => (d, None)
      | Err e => (current_data, Some e)
      end
  end.

Fixpoint remove_loop (current_data : pyval) (keys : list string) (exact_key : string)
    (index : pyval) : effect :=
  match keys with
  | [] => remove_target current_data exact_key index
  | chunk :: keys' =>
      match getitem current_data (VStr chunk) with
      | Err e => (current_data, Some e)
      | Ok child =>
          let '(child', raised) := remove_loop child keys' exact_key index in
          (write_back current_data chunk child', raised)
      end
  end.

(** [remove]: [index] is [VNone] when the argument is left out.  The [for]
    loop stands after the [if], so a key of one chunk is walked too. *)
Definition remove (key : string) (index : pyval) : M Self :=
  fun st =>
    let current_data := configuration_data st in
    let keys := PyStr.split key in
    let exact_key := List.hd EmptyString keys in
    let '(exact_key, keys) :=
      if (1 <? length keys)%nat
      then (List.last keys EmptyString, List.removelast keys)
      else (exact_key, keys)
    in
    let '(data, raised) := remove_loop current_data keys exact_key index in
    (match raised with Some e => Err e | None => Ok self end,
     {| configuration_data := data; handler := handler st |}).

(** *** Handlers, import and export *)

Section WithEnv.
Context {env : Env}.

(** Modelled from the spec: the [load] of the dict handler
    ([kaptan/handlers/dict_handler.py], not in the source given); the
    generic mapping format is a pass-through. *)
Definition handler_load (h : Handler) (data : pyval) : result pyval :=
  match h with
  | DictHandler => Ok data
  | _ => format_load h data
  end.

(** Modelled from the spec: the [dump] of the dict handler, a pass-through
    as well.  Keyword options are handed to the handler and not
    modelled. *)
Definition handler_dump (h : Handler) (data : pyval) : result pyval :=
  match h with
  | DictHandler => Ok data
  | _ => format_dump h data
  end.

Definition _is_python_file (value : string) : bool :=
  let ext := PyStr.splitext_ext value in
  String.eqb ext "py" || isfile (value ++ ".py").

Definition import_config (value : config_source) : M Self :=
  do! data :=
    match value with
    | SrcDict d =>
        do! _ := set_handler DictHandler in
        ret (VDict d)
    | SrcStr value =>
        if isfile value && negb (_is_python_file value) then
          do! h := get_handler in
          do! _ :=
            match h with
            | Some _ => ret tt
            | None =>
                match HANDLER_EXT !! PyStr.splitext_ext value ≫= (HANDLER_MAP !!.) with
                | Some h' => set_handler h'
                | None => raise (RuntimeError "Unable to determine handler")
                end
            end in
          do! text := lift (read value) in
          ret (VStr text)
        else if _is_python_file value then
          do! _ := set_handler PyFileHandler in
          let value := if PyStr.endswith value ".py" then value else value ++ ".py" in
          let data := abspath value in
          if negb (isfile data)
          then raise (IOError ("File " ++ data ++ " not found."))
          else ret (VStr data)
        else
          do! h := get_handler in
          match h with
          | None => raise (RuntimeError "Unable to determine handler")
          | Some _ => ret (VStr value)
          end
    end in
  do! h := get_handler in
  match h with
  | None => raise AttributeError
  | Some h =>
      do! tree := lift (handler_load h data) in
      do! _ := set_data tree in
      ret self
  end.

(** [export(handler)]: [None] and the empty string are both "no handler". *)
Definition export (handler : option string) : M pyval :=
  do! handler_class :=
    match handler with
    | None | Some EmptyString =>
        do! h := get_handler in
        match h with
        | Some h => ret h
        | None => raise AttributeError
        end
    | Some name =>
        match HANDLER_MAP !! name with
        | Some h => ret h
        | None => raise (KeyError (VStr name))
        end
    end in
  do! data := get_data in
  lift (handler_dump handler_class data).

(** [get(key, default)]: [key] is [None] when left out, [default] is [None]
    for the sentinel. *)
Definition get (key : option string) (default : option pyval) : M pyval :=
  match key with
  | None | Some EmptyString => export (Some "dict")
  | Some key =>
      try_except
        (try_except (_get key) (get_reraise key))
        (get_default default)
  end.

End WithEnv.

(** ** The command line

    The part of [main] that decides, for each argument, which handler the
    store of that file is created with.  (Parsing the arguments, reading the
    files and printing are not modelled.) *)

(** [s.split(sep)] for a separator of one character. *)
Fixpoint split_on (sep : ascii) (s : string) : list string :=
  match s with
  | EmptyString => [EmptyString]
  | String c s' =>
      if Ascii.eqb c sep then EmptyString :: split_on sep s'
      else match split_on sep s' with
           | [] => [String c EmptyString]
           | w :: ws => String c w :: ws
           end
  end.

(** [get_handlers()] in [main]: each argument cut at its colons, with [None]
    added at the end unless the cut gave two parts. *)
Definition get_handlers (config_files : list string) : list (list (option string)) :=
  (fun f =>
     let s : list (option string) := Some <$> split_on ":" f in
     if (length s =? 2)%nat then s else (s ++ [None])%list) <$> config_files.

(** One item put in an ordered dict: a key already there keeps its place and
    takes the new value. *)
Fixpoint ordered_set (k v : option string) (d : list (option string * option string))
    : list (option string * option string) :=
  match d with
  | [] => [(k, v)]
  | (k', v') :: d' =>
      if bool_decide (k' = k) then (k, v) :: d' else (k', v') :: ordered_set k v d'
  end.

(** [OrderedDict(items)]: every item must have exactly two parts. *)
Fixpoint OrderedDict_from (d : list (option string * option string))
    (items : list (list (option string))) : result (list (option string * option string)) :=
  match items with
  | [] => Ok d
  | [k; v] :: items' => OrderedDict_from (ordered_set k v d) items'
  | _ :: _ => Err ValueError
  end.

Definition OrderedDict (items : list (list (option string)))
    : result (list (option string * option string)) :=
  OrderedDict_from [] items.

(** [handler or alt] *)
Definition or_else (handler : option string) (alt : string) : string :=
  match handler with
  | None | Some EmptyString => alt
  | Some h => h
  end.

(** The name [main] gives to [Kaptan(handler=...)] for one item of
    [config_handlers]; [args_handler] is the [--handler] option. *)
Definition main_handler (args_handler config_file : string) (handler : option string) : string :=
  let is_stdin := String.eqb config_file "-" in
  if is_stdin then or_else handler args_handler
  else
    let ext := or_else handler (PyStr.splitext_ext config_file) in
    default args_handler (HANDLER_EXT !! ext).

(** ** Vocabulary of the properties *)

(** The exception classes named by the outer [except] clause of [get]. *)
Definition lookup_error (e : exn) : Prop :=
  match e with
  | KeyError _ | ValueError | IndexError => True
  | _ => False
  end.

(** The exception [get] raises in place of [e]: the inner [except] clauses
    put the whole key in a [KeyError] and keep the class. *)
Definition reraised (key : string) (e : exn) : exn :=
  match e with
  | KeyError _ => KeyError (VStr key)
  | _ => e
  end.

(** A node that [_get] returns as it is: neither a [Mapping] nor a
    [Sequence]. *)
Definition scalar (v : pyval) : Prop :=
  isinstance_Mapping v = false /\ isinstance_Sequence v = false.

(** Every node met when walking [keys] down from [current_data], the node
    the walk ends at included, is a dict; the walk may stop at a missing
    key. *)
Fixpoint mappings_along (current_data : pyval) (keys : list string) : bool :=
  match current_data with
  | VDict m =>
      match keys with
      | [] => true
      | chunk :: keys' =>
          match m !! chunk with
          | Some child => mappings_along child keys'
          | None => true
          end
      end
  | _ => false
  end.

(** The dicts [add] creates below a missing key: one per chunk of [keys],
    each with the next chunk as its only key, the last one holding
    [new_key]. *)
Fixpoint chain (keys : list string) (new_key : string) (value : pyval) : pyval :=
  match keys with
  | [] => VDict {[ new_key := value ]}
  | chunk :: keys' => VDict {[ chunk := chain keys' new_key value ]}
  end.

(** What reading a path gives after a successful [add] of [value] at it,
    against what reading it gave before: the list that was there with
    [value] appended, and [value] itself when no list was there. *)
Definition reads_added (before after : result pyval) (value : pyval) : Prop :=
  match before with
  | Ok (VList l) => after = Ok (VList (l ++ [value]))
  | _ => after = Ok value
  end.

(** A store that has no handler. *)
Definition store_of (tree : pyval) : Kaptan :=
  {| configuration_data := tree; handler := None |}.

(** The tree [{"a": {"b": items}}]. *)
Definition tree_a_b (items : list Z) : pyval :=
  VDict {[ "a" := VDict {[ "b" := VList (VInt <$> items) ]} ]}.

(** * Properties *)

(** ** Strings *)

Lemma split_not_nil (s : string) : PyStr.split s <> [].
Proof.
  induction s as [|c s IH]; simpl; [discriminate|].
  destruct (Ascii.eqb c "."); [discriminate|].
  destruct (PyStr.split s); discriminate.
Qed.

Lemma split_removelast_last (s : string) :
  PyStr.split s = (List.removelast (PyStr.split s) ++ [List.last (PyStr.split s) EmptyString])%list.
Proof. apply app_removelast_last, split_not_nil. Qed.

Lemma split_one_chunk (s : string) :
  (1 <? length (PyStr.split s))%nat = false ->
  PyStr.split s = [List.hd EmptyString (PyStr.split s)].
Proof.
  intros Hlen. pose proof (split_not_nil s) as Hne.
  destruct (PyStr.split s) as [|k [|k' ks]]; [done|done|].
  simpl in Hlen. discriminate.
Qed.

Example split_examples :
  PyStr.split "a.b.1" = ["a"; "b"; "1"] /\ PyStr.split "" = [""] /\
  PyStr.split "a." = ["a"; ""] /\ PyStr.split ".a" = [""; "a"] /\
  PyStr.split "abc" = ["abc"].
Proof. repeat split; reflexivity. Qed.

Example int_examples :
  PyStr.int "12" = Some 12 /\ PyStr.int "-1" = Some (-1) /\ PyStr.int " +7 " = Some 7 /\
  PyStr.int "" = None /\ PyStr.int "x" = None /\ PyStr.int "1x" = None /\ PyStr.int "-" = None.
Proof. repeat split; reflexivity. Qed.

Example splitext_examples :
  PyStr.splitext_ext "settings.yml" = "yml" /\ PyStr.splitext_ext "settings" = "" /\
  PyStr.splitext_ext "a.b/settings" = "" /\ PyStr.splitext_ext ".bashrc" = "" /\
  PyStr.splitext_ext "dir/conf.tar.py" = "py" /\ PyStr.splitext_ext "..py" = "" /\
  PyStr.splitext_ext "x." = "".
Proof. repeat split; reflexivity. Qed.

Example str_examples :
  PyStr.endswith "settings.py" ".py" = true /\ PyStr.endswith "py" ".py" = false /\
  PyStr.contains "ell" "hello" = true /\ PyStr.contains "" "" = true /\
  PyStr.contains "z" "hello" = false.
Proof. repeat split; reflexivity. Qed.

(** ** Reading: [_get] and [get] *)

Lemma get_loop_scalar (v : pyval) (chunks : list string) :
  scalar v -> _get_loop v chunks = Ok v.
Proof.
  intros [Hm Hs]. destruct chunks as [|chunk chunks]; simpl; [done|].
  by rewrite Hm, Hs.
Qed.

(** Once the walk over [pre] has ended at a scalar, the chunks that follow
    do not matter. *)
Lemma get_loop_app_scalar (pre suf : list string) (current_data v : pyval) :
  _get_loop current_data pre = Ok v -> scalar v ->
  _get_loop current_data (pre ++ suf) = Ok v.
Proof.
  revert current_data.
  induction pre as [|chunk pre IH]; intros current_data Hwalk Hv; simpl in *.
  - injection Hwalk as ->. by apply get_loop_scalar.
  - destruct (isinstance_Mapping current_data).
    + destruct (getitem current_data (VStr chunk)); [by apply IH | done].
    + destruct (isinstance_Sequence current_data); [|done].
      destruct (PyStr.int chunk); [|done].
      destruct (getitem current_data (VInt z)); [by apply IH | done].
Qed.

(** [_get] raises nothing but the three classes [get] catches. *)
Lemma get_loop_raises (chunks : list string) (current_data : pyval) (e : exn) :
  _get_loop current_data chunks = Err e -> lookup_error e.
Proof.
  revert current_data.
  induction chunks as [|chunk chunks IH]; intros current_data; simpl; [done|].
  destruct current_data as [| | | s | l | m]; simpl; try done.
  - destruct (PyStr.int chunk) as [i|]; [|by intros [= <-]].
    destruct (norm_index _ i) as [n|]; [|by intros [= <-]].
    destruct (str_items s !! n); [apply IH | by intros [= <-]].
  - destruct (PyStr.int chunk) as [i|]; [|by intros [= <-]].
    destruct (norm_index _ i) as [n|]; [|by intros [= <-]].
    destruct (l !! n); [apply IH | by intros [= <-]].
  - destruct (m !! chunk); [apply IH | by intros [= <-]].
Qed.

Section Reading.
Context {env : Env}.

Lemma get_reraise_raise (key : string) (e : exn) :
  get_reraise key e = raise (reraised key e).
Proof. by destruct e. Qed.

(** [get] on a key that is not empty, in terms of the loop of [_get]. *)
Lemma get_unfold (st : Kaptan) (key : string) (default : option pyval) :
  key <> "" ->
  get (Some key) default st =
    match _get_loop (configuration_data st) (PyStr.split key) with
    | Ok v => (Ok v, st)
    | Err e => get_default default (reraised key e) st
    end.
Proof.
  intros Hkey. destruct key as [|c key]; [done|].
  unfold get, try_except, _get, bind, get_data, lift.
  destruct (_get_loop _ _) as [v|e]; [done|].
  by rewrite get_reraise_raise.
Qed.

Lemma reraised_lookup_error (key : string) (e : exn) :
  lookup_error e -> lookup_error (reraised key e).
Proof. by destruct e. Qed.

(** C1: on the tree [{"a": {"b": [1, 2]}}], [get("a.b.1")] returns [2] and
    [get("a.b.5", default=-1)] returns [-1]; [add("a.b", 3)] makes the tree
    [{"a": {"b": [1, 2, 3]}}]; then [remove("a.b", index=0)] makes it
    [{"a": {"b": [2, 3]}}]; then [remove("a.b")] makes it [{"a": {}}]. *)
Theorem example_session :
  get (Some "a.b.1") None (store_of (tree_a_b [1; 2]))
    = (Ok (VInt 2), store_of (tree_a_b [1; 2])) /\
  get (Some "a.b.5") (Some (VInt (-1))) (store_of (tree_a_b [1; 2]))
    = (Ok (VInt (-1)), store_of (tree_a_b [1; 2])) /\
  add "a.b" (VInt 3) false (store_of (tree_a_b [1; 2]))
    = (Ok self, store_of (tree_a_b [1; 2; 3])) /\
  remove "a.b" (VInt 0) (store_of (tree_a_b [1; 2; 3]))
    = (Ok self, store_of (tree_a_b [2; 3])) /\
  remove "a.b" VNone (store_of (tree_a_b [2; 3]))
    = (Ok self, store_of (VDict {[ "a" := VDict ∅ ]})).
Proof. repeat split; vm_compute; reflexivity. Qed.

(** C3, as the code has it: when the walk of [get] over the first chunks of
    a key ends at a node that is neither a Mapping nor a Sequence for the
    code, that is at [None], a boolean or a number and not at a string,
    [get] returns that node whatever chunks follow, and raises nothing.
    ([pre] may be empty: the root itself is then that node.) *)
Theorem get_stops_at_scalar (st : Kaptan) (key : string) (pre suf : list string)
    (v : pyval) (default : option pyval) :
  key <> "" ->
  PyStr.split key = (pre ++ suf)%list ->
  _get_loop (configuration_data st) pre = Ok v ->
  scalar v ->
  get (Some key) default st = (Ok v, st).
Proof.
  intros Hkey Hsplit Hwalk Hv.
  rewrite get_unfold by done.
  by rewrite Hsplit, (get_loop_app_scalar pre suf _ v).
Qed.

(** C6: for a key that is not empty, [get] with a default [d] returns [d]
    when the walk of [_get] raises, which it does with [KeyError],
    [ValueError] or [IndexError] only, and returns what the walk returns
    otherwise; with no default the exception reaches the caller, its class
    unchanged; and an exception of any other class would pass through the
    [except] clauses of [get] whatever the default. *)
Theorem get_default_on_lookup_errors (st : Kaptan) (key : string) (d : pyval) :
  key <> "" ->
  match fst (_get key st) with
  | Ok v =>
      get (Some key) (Some d) st = (Ok v, st) /\
      get (Some key) None st = (Ok v, st)
  | Err e =>
      lookup_error e /\
      get (Some key) (Some d) st = (Ok d, st) /\
      get (Some key) None st = (Err (reraised key e), st)
  end /\
  (forall (e : exn) (st0 : Kaptan),
     ~ lookup_error e ->
     try_except (try_except (raise e) (get_reraise key)) (get_default (Some d)) st0
       = (Err e, st0)).
Proof.
  intros Hkey. split.
  - rewrite !get_unfold by done.
    unfold _get, bind, get_data, lift; simpl.
    destruct (_get_loop _ _) as [v|e] eqn:Hwalk; [done|].
    apply get_loop_raises in Hwalk.
    split; [done|]. by destruct e.
  - intros e st0 He. by destruct e; simpl in He; try done; exfalso; apply He.
Qed.

(** C9: [get] leaves the store as it was, whatever the key and the default;
    with no key or the empty key it returns the whole configuration. *)
Theorem get_never_mutates (st : Kaptan) (key : option string) (default : option pyval) :
  snd (get key default st) = st /\
  get None default st = (Ok (configuration_data st), st) /\
  get (Some "") default st = (Ok (configuration_data st), st).
Proof.
  split; [|done].
  destruct key as [[|c key]|]; [done| |done].
  rewrite get_unfold by done.
  destruct (_get_loop _ _) as [v|e]; [done|].
  by destruct e, default.
Qed.

End Reading.

Lemma get_stops_at_scalar_witness :
  "a.x.y" <> "" /\
  @get no_files (Some "a.x.y") None (store_of (VDict {[ "a" := VInt 7 ]}))
    = (Ok (VInt 7), store_of (VDict {[ "a" := VInt 7 ]})).
Proof.
  split; [discriminate|].
  apply (@get_stops_at_scalar no_files _ "a.x.y" ["a"] ["x"; "y"]).
  - discriminate.
  - reflexivity.
  - reflexivity.
  - split; reflexivity.
Defined.

(** C3 fails on a string: a [str] is a [Sequence], so on [{"a": "hello"}]
    the chunk after [a] is read as an index into the string: [get("a.x.y")]
    raises [ValueError], [get("a.9")] raises [IndexError], and [get("a.0")]
    returns ["h"], not the string. *)
Lemma get_through_string_node :
  @get no_files (Some "a") None (store_of (VDict {[ "a" := VStr "hello" ]}))
    = (Ok (VStr "hello"), store_of (VDict {[ "a" := VStr "hello" ]})) /\
  @get no_files (Some "a.x.y") None (store_of (VDict {[ "a" := VStr "hello" ]}))
    = (Err ValueError, store_of (VDict {[ "a" := VStr "hello" ]})) /\
  @get no_files (Some "a.9") None (store_of (VDict {[ "a" := VStr "hello" ]}))
    = (Err IndexError, store_of (VDict {[ "a" := VStr "hello" ]})) /\
  @get no_files (Some "a.0") None (store_of (VDict {[ "a" := VStr "hello" ]}))
    = (Ok (VStr "h"), store_of (VDict {[ "a" := VStr "hello" ]})).
Proof. repeat split; vm_compute; reflexivity. Qed.

(** The nodes [get] returns as they are: [None], booleans and integers. *)
Lemma scalar_cases (v : pyval) :
  scalar v <-> v = VNone \/ (exists b, v = VBool b) \/ (exists z, v = VInt z).
Proof.
  unfold scalar. split.
  - destruct v; intros [Hm Hs]; try done; eauto.
  - intros [->|[[b ->]|[z ->]]]; done.
Qed.

Lemma get_default_on_lookup_errors_witness :
  @get no_files (Some "a.b.5") (Some (VInt (-1))) (store_of (tree_a_b [1; 2]))
    = (Ok (VInt (-1)), store_of (tree_a_b [1; 2])) /\
  @get no_files (Some "a.b.5") None (store_of (tree_a_b [1; 2]))
    = (Err IndexError, store_of (tree_a_b [1; 2])).
Proof.
  pose proof (@get_default_on_lookup_errors no_files (store_of (tree_a_b [1; 2]))
                "a.b.5" (VInt (-1)) ltac:(discriminate)) as [H _].
  vm_compute in H. destruct H as (_ & H1 & H2). split; [exact H1 | exact H2].
Defined.

(** ** [upsert] *)

(** C10, as the code has it: on a store whose tree is a dict, [upsert] sets
    the entry [key] of that dict to [value], whatever was there, keeps every
    other entry, raises nothing and returns the store. *)
Theorem upsert_sets_entry (m : gmap string pyval) (h : option Handler)
    (key : string) (value : pyval) :
  upsert key value {| configuration_data := VDict m; handler := h |}
    = (Ok self, {| configuration_data := VDict (<[key := value]> m); handler := h |}) /\
  <[key := value]> m !! key = Some value /\
  (forall k : string, k <> key -> <[key := value]> m !! k = m !! k).
Proof.
  split; [done|]. split; [apply lookup_insert_eq|].
  intros k Hk. by apply lookup_insert_ne.
Qed.

Lemma upsert_sets_entry_witness :
  upsert "b" (VInt 3) (store_of (VDict {[ "a" := VInt 1; "b" := VList [VInt 1; VInt 2] ]}))
    = (Ok self, store_of (VDict {[ "a" := VInt 1; "b" := VInt 3 ]})) /\
  (<["b" := VInt 3]> {[ "a" := VInt 1; "b" := VList [VInt 1; VInt 2] ]} : gmap string pyval) !! "a"
    = ({[ "a" := VInt 1; "b" := VList [VInt 1; VInt 2] ]} : gmap string pyval) !! "a".
Proof.
  pose proof (upsert_sets_entry {[ "a" := VInt 1; "b" := VList [VInt 1; VInt 2] ]} None
                "b" (VInt 3)) as (Hset & _ & Hothers).
  split.
  - vm_compute. reflexivity.
  - apply Hothers. discriminate.
Defined.

(** C10 fails on a tree that is not a dict: a list has no [update], so
    [upsert] raises [AttributeError] and sets nothing. *)
Lemma upsert_on_list_raises :
  upsert "k" (VInt 1) (store_of (VList [VInt 0]))
    = (Err AttributeError, store_of (VList [VInt 0])).
Proof. reflexivity. Qed.

(** In contrast to [add], [upsert] overwrites a list and an existing
    scalar. *)
Lemma upsert_overwrites :
  upsert "b" (VInt 3) (store_of (VDict {[ "b" := VList [VInt 1; VInt 2] ]}))
    = (Ok self, store_of (VDict {[ "b" := VInt 3 ]})) /\
  add "a.b" (VInt 3) false (store_of (VDict {[ "a" := VDict {[ "b" := VInt 1 ]} ]}))
    = (Err (RuntimeError "Key b already exist"),
       store_of (VDict {[ "a" := VDict {[ "b" := VInt 1 ]} ]})).
Proof. split; vm_compute; reflexivity. Qed.

(** ** [import_config] *)

Section Importing.
Context {env : Env}.

(** C8, as the code has it: a dict is installed as the tree as it is, with
    the dict handler selected; a string that names no file, has no [py]
    extension and no file of the same name with [.py] added, on a store with
    no handler, is refused with "Unable to determine handler", and the store
    is left as it was. *)
Theorem import_config_dispatch (d : gmap string pyval) (st1 : Kaptan)
    (value : string) (st2 : Kaptan) :
  isfile value = false ->
  PyStr.splitext_ext value <> "py" ->
  isfile (value ++ ".py") = false ->
  handler st2 = None ->
  import_config (SrcDict d) st1
    = (Ok self, {| configuration_data := VDict d; handler := Some DictHandler |}) /\
  import_config (SrcStr value) st2
    = (Err (RuntimeError "Unable to determine handler"), st2).
Proof.
  intros Hfile Hext Hpy Hnone. split; [done|].
  unfold import_config, _is_python_file, bind, get_handler, raise.
  rewrite Hfile, Hpy. simpl.
  destruct (String.eqb_spec (PyStr.splitext_ext value) "py") as [|_]; [done|].
  simpl. by rewrite Hnone.
Qed.

End Importing.

Lemma import_config_dispatch_witness :
  @import_config no_files (SrcDict {[ "a" := VInt 1 ]}) (store_of (VDict ∅))
    = (Ok self, {| configuration_data := VDict {[ "a" := VInt 1 ]};
                   handler := Some DictHandler |}) /\
  @import_config no_files (SrcStr "settings") (store_of (VDict ∅))
    = (Err (RuntimeError "Unable to determine handler"), store_of (VDict ∅)).
Proof.
  apply (@import_config_dispatch no_files).
  - reflexivity.
  - discriminate.
  - reflexivity.
  - reflexivity.
Defined.

(** C8 fails on a string with a [py] extension: with no file at all and no
    handler set, ["settings.py"] names no file and no file
    ["settings.py.py"] exists, yet [import_config] selects the Python file
    handler and raises [IOError]. *)
Lemma import_config_py_extension :
  @isfile no_files "settings.py" = false /\
  @isfile no_files ("settings.py" ++ ".py") = false /\
  handler (store_of (VDict ∅)) = None /\
  @import_config no_files (SrcStr "settings.py") (store_of (VDict ∅))
    = (Err (IOError "File /settings.py not found."),
       {| configuration_data := VDict ∅; handler := Some PyFileHandler |}).
Proof. repeat split; vm_compute; reflexivity. Qed.

(** ** Writing: [add] *)

Section Adding.
Variables (new_key : string) (value : pyval).

(** The last [try] of [add] on a dict, case by case. *)
Lemma add_target_dict (m : gmap string pyval) (replace is_key_exist : bool) :
  add_target (VDict m) new_key value replace is_key_exist =
    if replace then (VDict (<[new_key := value]> m), None)
    else match m !! new_key with
         | None => (VDict (<[new_key := value]> m), None)
         | Some (VList l) => (VDict (<[new_key := VList (l ++ [value])]> m), None)
         | Some _ =>
             if is_key_exist
             then (VDict m, Some (RuntimeError ("Key " ++ new_key ++ " already exist")))
             else (VDict m, None)
         end.
Proof.
  unfold add_target. destruct replace; simpl; [done|].
  destruct (m !! new_key) as [x|]; [|done].
  destruct x; try done; by destruct is_key_exist.
Qed.

(** On anything but a dict it raises [TypeError]. *)
Lemma add_target_not_dict (current_data : pyval) (replace is_key_exist : bool) :
  isinstance_Mapping current_data = false ->
  add_target current_data new_key value replace is_key_exist = (current_data, Some TypeError).
Proof. by destruct current_data, replace. Qed.

(** A turn of the loop at a missing key puts a new empty dict under it and
    goes on from that dict. *)
Lemma add_step_missing (m : gmap string pyval) (chunk : string) (replace is_key_exist : bool) :
  m !! chunk = None ->
  add_step (VDict m) chunk new_key replace is_key_exist
    = Ok (VDict (<[chunk := VDict ∅]> m), VDict ∅, is_key_exist).
Proof.
  intros Hnone. unfold add_step. simpl. rewrite Hnone. simpl.
  by rewrite lookup_insert_eq.
Qed.

(** A turn of the loop at a key that holds a dict goes on from that dict,
    and notes whether it has the target key. *)
Lemma add_step_dict (m child : gmap string pyval) (chunk : string) (replace is_key_exist : bool) :
  m !! chunk = Some (VDict child) ->
  add_step (VDict m) chunk new_key replace is_key_exist
    = Ok (VDict m, VDict child,
          if negb replace && bool_decide (is_Some (child !! new_key)) then true else is_key_exist).
Proof.
  intros Hsome. unfold add_step. simpl. rewrite Hsome. by destruct replace.
Qed.

Lemma add_step_not_dict (current_data : pyval) (chunk : string) (replace is_key_exist : bool) :
  isinstance_Mapping current_data = false ->
  add_step current_data chunk new_key replace is_key_exist = Err TypeError.
Proof.
  intros Hm. unfold add_step.
  destruct current_data as [| | | s | l | m]; try done.
Qed.

(** From an empty dict the loop builds the chain of new dicts. *)
Lemma add_loop_empty (keys : list string) (replace is_key_exist : bool) :
  add_loop (VDict ∅) keys new_key value replace is_key_exist
    = (chain keys new_key value, None).
Proof.
  induction keys as [|chunk keys IH]; simpl.
  - rewrite add_target_dict, lookup_empty, insert_empty. by destruct replace.
  - rewrite add_step_missing by apply lookup_empty.
    rewrite IH. simpl. by rewrite insert_insert_eq, insert_empty.
Qed.

(** Reading the path back in the chain finds the value. *)
Lemma get_loop_chain (keys : list string) :
  _get_loop (chain keys new_key value) (keys ++ [new_key]) = Ok value.
Proof.
  induction keys as [|chunk keys IH]; simpl.
  - by rewrite lookup_singleton_eq.
  - by rewrite lookup_singleton_eq.
Qed.

Lemma mappings_along_dict (current_data : pyval) (keys : list string) :
  mappings_along current_data keys = true -> exists m, current_data = VDict m.
Proof. destruct current_data, keys; try done; eauto. Qed.

(** Where every node on the way is a dict, the walk of [add] does not
    fail: the only exception is the one raised for an existing key. *)
Lemma add_loop_mappings (keys : list string) (current_data : pyval) (replace is_key_exist : bool) :
  mappings_along current_data keys = true ->
  snd (add_loop current_data keys new_key value replace is_key_exist) = None \/
  (replace = false /\
   snd (add_loop current_data keys new_key value replace is_key_exist)
     = Some (RuntimeError ("Key " ++ new_key ++ " already exist"))).
Proof.
  revert current_data is_key_exist.
  induction keys as [|chunk keys IH]; intros current_data is_key_exist Hmaps;
    destruct (mappings_along_dict _ _ Hmaps) as [m ->]; simpl in *.
  - rewrite add_target_dict. destruct replace; [by left|].
    destruct (m !! new_key) as [x|]; [|by left].
    destruct x; try (by left); destruct is_key_exist; auto.
  - destruct (m !! chunk) as [child|] eqn:Hchunk.
    + destruct (mappings_along_dict _ _ Hmaps) as [mc ->].
      rewrite (add_step_dict _ mc) by done.
      specialize (IH (VDict mc)
        (if negb replace && bool_decide (is_Some (mc !! new_key)) then true else is_key_exist) Hmaps).
      by destruct (add_loop _ _ _ _ _ _).
    + rewrite add_step_missing by done. rewrite add_loop_empty. by left.
Qed.

(** Below the first missing key of the container path, [add] leaves the
    chain of new dicts, and succeeds. *)
Lemma add_loop_vivifies (pre : list string) (chunk : string) (rest : list string)
    (current_data : pyval) (m : gmap string pyval) (replace is_key_exist : bool) :
  mappings_along current_data (pre ++ chunk :: rest) = true ->
  _get_loop current_data pre = Ok (VDict m) ->
  m !! chunk = None ->
  exists current_data',
    add_loop current_data (pre ++ chunk :: rest) new_key value replace is_key_exist
      = (current_data', None) /\
    _get_loop current_data' (pre ++ [chunk]) = Ok (chain rest new_key value).
Proof.
  revert current_data is_key_exist.
  induction pre as [|c pre IH]; intros current_data is_key_exist Hmaps Hwalk Hnone;
    destruct (mappings_along_dict _ _ Hmaps) as [m0 ->]; simpl in *.
  - injection Hwalk as ->.
    rewrite add_step_missing by done. rewrite add_loop_empty. simpl.
    eexists; split; [done|]. simpl. by rewrite lookup_insert_eq.
  - destruct (m0 !! c) as [child|] eqn:Hc; [|done].
    destruct (mappings_along_dict _ _ Hmaps) as [mc ->].
    rewrite (add_step_dict _ mc) by done.
    destruct (IH (VDict mc)
      (if negb replace && bool_decide (is_Some (mc !! new_key)) then true else is_key_exist)
      Hmaps Hwalk Hnone) as (child' & -> & Hread).
    simpl. eexists; split; [done|]. simpl. by rewrite lookup_insert_eq.
Qed.

End Adding.

(** The walk and the target of [add], from the chunks of the key. *)
Lemma add_unfold (st : Kaptan) (key : string) (value : pyval) (replace : bool) :
  exists (keys : list string) (new_key : string),
    PyStr.split key = (keys ++ [new_key])%list /\
    (keys = [] <-> (1 <? length (PyStr.split key))%nat = false) /\
    (keys = List.removelast (PyStr.split key)) /\
    (new_key = List.last (PyStr.split key) EmptyString) /\
    add key value replace st =
      (match snd (add_loop (configuration_data st) keys new_key value replace false) with
       | Some e => Err e
       | None => Ok self
       end,
       {| configuration_data :=
            fst (add_loop (configuration_data st) keys new_key value replace false);
          handler := handler st |}).
Proof.
  unfold add.
  destruct (1 <? length (PyStr.split key))%nat eqn:Hlen.
  - exists (List.removelast (PyStr.split key)), (List.last (PyStr.split key) EmptyString).
    split; [apply split_removelast_last|]. split.
    + split; [|done]. intros Hnil.
      pose proof (split_removelast_last key) as Heq. rewrite Hnil in Heq.
      rewrite Heq in Hlen. simpl in Hlen. discriminate.
    + do 2 (split; [done|]). by destruct (add_loop _ _ _ _ _ _).
  - apply split_one_chunk in Hlen as Hone.
    exists [], (List.hd EmptyString (PyStr.split key)).
    split; [done|]. split; [done|].
    split; [by rewrite Hone|]. split; [by rewrite Hone|].
    by destruct (add_loop _ _ _ _ _ _).
Qed.

(** C4, as the code has it: for a key of several chunks, when every node
    that exists on the container path is a dict, [add] does not fail on the
    way (it succeeds, or raises for an existing target key); below the
    first missing key of the container path it leaves new dicts, one per
    chunk, the last one holding the value; and [add("x.y.z", 5)] on the
    empty tree gives [{"x": {"y": {"z": 5}}}]. *)
Theorem add_autovivifies (st : Kaptan) (key : string) (value : pyval) (replace : bool) :
  (1 < length (PyStr.split key))%nat ->
  mappings_along (configuration_data st) (List.removelast (PyStr.split key)) = true ->
  (fst (add key value replace st) = Ok self \/
   (replace = false /\
    fst (add key value replace st)
      = Err (RuntimeError ("Key " ++ List.last (PyStr.split key) EmptyString ++ " already exist")))) /\
  (forall (pre : list string) (chunk : string) (rest : list string) (m : gmap string pyval),
     List.removelast (PyStr.split key) = (pre ++ chunk :: rest)%list ->
     _get_loop (configuration_data st) pre = Ok (VDict m) ->
     m !! chunk = None ->
     fst (add key value replace st) = Ok self /\
     _get_loop (configuration_data (snd (add key value replace st))) (pre ++ [chunk])
       = Ok (chain rest (List.last (PyStr.split key) EmptyString) value)) /\
  add "x.y.z" (VInt 5) false (store_of (VDict ∅))
    = (Ok self, store_of (VDict {[ "x" := VDict {[ "y" := VDict {[ "z" := VInt 5 ]} ]} ]})).
Proof.
  intros Hlen Hmaps.
  destruct (add_unfold st key value replace) as (keys & new_key & _ & _ & -> & -> & ->).
  simpl. split; [|split].
  - destruct (add_loop_mappings (List.last (PyStr.split key) EmptyString) value
                _ _ replace false Hmaps) as [->|[-> ->]]; auto.
  - intros pre chunk rest m Hpath Hwalk Hnone.
    rewrite Hpath in *.
    destruct (add_loop_vivifies (List.last (PyStr.split key) EmptyString) value
                pre chunk rest _ m replace false Hmaps Hwalk Hnone)
      as (tree' & -> & Hread).
    done.
  - vm_compute. reflexivity.
Qed.

Lemma add_autovivifies_witness :
  add "x.y.z" (VInt 5) false (store_of (VDict {[ "a" := VInt 1 ]}))
    = (Ok self,
       store_of (VDict {[ "a" := VInt 1;
                          "x" := VDict {[ "y" := VDict {[ "z" := VInt 5 ]} ]} ]})) /\
  _get_loop
    (configuration_data (snd (add "x.y.z" (VInt 5) false (store_of (VDict {[ "a" := VInt 1 ]})))))
    ["x"] = Ok (chain ["y"] "z" (VInt 5)).
Proof.
  pose proof (add_autovivifies (store_of (VDict {[ "a" := VInt 1 ]})) "x.y.z" (VInt 5) false
                ltac:(vm_compute; lia) ltac:(reflexivity)) as (_ & Hnew & _).
  split; [vm_compute; reflexivity|].
  apply (Hnew [] "x" ["y"] {[ "a" := VInt 1 ]}); reflexivity.
Defined.

(** C4 fails when a node on the container path is not a dict: on
    [{"x": 1}], [add("x.y", 5)] raises [TypeError] and changes nothing,
    with [replace] or without. *)
Lemma add_through_scalar_raises :
  add "x.y" (VInt 5) false (store_of (VDict {[ "x" := VInt 1 ]}))
    = (Err TypeError, store_of (VDict {[ "x" := VInt 1 ]})) /\
  add "x.y" (VInt 5) true (store_of (VDict {[ "x" := VInt 1 ]}))
    = (Err TypeError, store_of (VDict {[ "x" := VInt 1 ]})) /\
  add "x.y.z" (VInt 5) false (store_of (VDict {[ "x" := VList [] ]}))
    = (Err TypeError, store_of (VDict {[ "x" := VList [] ]})).
Proof. repeat split; vm_compute; reflexivity. Qed.

(** ** [add] then [get] *)

Section AddThenGet.
Variables (new_key : string) (value : pyval).

(** After a successful walk of [add] without [replace], reading the same
    chunks finds the value, or the list it was appended to.  At the target
    itself the flag must be set when a value that is no list is there: the
    loop sets it on its last turn, so the condition is on a walk of no
    chunk only. *)
Lemma add_loop_then_get (keys : list string) (current_data current_data' : pyval)
    (is_key_exist : bool) :
  add_loop current_data keys new_key value false is_key_exist = (current_data', None) ->
  (keys <> [] \/ is_key_exist = true \/
   forall x, getitem current_data (VStr new_key) = Ok x -> isinstance_list x = true) ->
  reads_added (_get_loop current_data (keys ++ [new_key]))
              (_get_loop current_data' (keys ++ [new_key])) value.
Proof.
  revert current_data current_data' is_key_exist.
  induction keys as [|chunk keys IH]; intros current_data current_data' is_key_exist Hadd Hflag.
  - simpl in Hadd.
    destruct (isinstance_Mapping current_data) eqn:Hm;
      [|by rewrite add_target_not_dict in Hadd].
    destruct current_data as [| | | | |m]; try done.
    rewrite add_target_dict in Hadd. simpl in *.
    destruct (m !! new_key) as [x|] eqn:Hx.
    + destruct x as [| | | | l |];
        try (destruct is_key_exist; [done|];
             destruct Hflag as [?|[?|Hlist]]; [done|done|];
             by specialize (Hlist _ eq_refl)).
      injection Hadd as <-. simpl. by rewrite lookup_insert_eq.
    + injection Hadd as <-. simpl. by rewrite lookup_insert_eq.
  - simpl in Hadd.
    destruct (isinstance_Mapping current_data) eqn:Hm;
      [|by rewrite add_step_not_dict in Hadd].
    destruct current_data as [| | | | |m]; try done.
    destruct (m !! chunk) as [child|] eqn:Hchunk.
    + unfold add_step in Hadd. simpl in Hadd. rewrite Hchunk in Hadd. simpl in Hadd.
      assert (exists found, contains new_key child = Ok found) as [found Hfound].
      { destruct child; simpl in *; eauto; done. }
      rewrite Hfound in Hadd. simpl in Hadd.
      destruct (add_loop child keys new_key value false _) as [child' raised] eqn:Hloop.
      injection Hadd as <- ->.
      simpl. rewrite Hchunk, lookup_insert_eq.
      apply (IH _ _ _ Hloop).
      destruct keys as [|k keys]; [right|by left].
      destruct child as [| | | s | l | mc]; try done; try (by right; intros x [=]).
      simpl in Hfound. injection Hfound as <-.
      destruct (mc !! new_key) as [y|] eqn:Hy; [left|right]; simpl.
      * done.
      * by rewrite Hy.
    + rewrite add_step_missing in Hadd by done. rewrite add_loop_empty in Hadd.
      injection Hadd as <-. simpl. rewrite Hchunk, lookup_insert_eq. simpl.
      apply get_loop_chain.
Qed.

End AddThenGet.

Section AddThenGetStore.
Context {env : Env}.

(** C7, as the code has it: for a key that is not empty, after [add] of
    [value] at the key has succeeded (without [replace]), [get] of the key
    returns [value], or, when a list was at the key before, that list with
    [value] appended.  A key of one chunk that already holds a value that is
    no list is left out: there [add] returns without storing anything. *)
Theorem add_then_get (st st' : Kaptan) (key : string) (value : pyval) :
  key <> "" ->
  add key value false st = (Ok self, st') ->
  ((1 < length (PyStr.split key))%nat \/
   forall x, fst (_get key st) = Ok x -> isinstance_list x = true) ->
  reads_added (fst (_get key st)) (fst (get (Some key) None st')) value.
Proof.
  intros Hkey Hadd Hcase.
  destruct (add_unfold st key value false) as (keys & new_key & Hsplit & Hnil & _ & _ & Heq).
  rewrite Heq in Hadd.
  destruct (add_loop _ _ _ _ _ _) as [tree' raised] eqn:Hloop. simpl in Hadd.
  destruct raised as [e|]; [done|]. injection Hadd as <-.
  rewrite get_unfold by done.
  unfold _get, bind, get_data, lift in *. simpl in *. rewrite Hsplit in *.
  assert (reads_added (_get_loop (configuration_data st) (keys ++ [new_key]))
            (_get_loop tree' (keys ++ [new_key])) value) as Hread.
  { apply (add_loop_then_get _ _ _ _ _ _ Hloop).
    destruct Hcase as [Hlen|Hlist].
    - left. intros Hk. apply Hnil in Hk. apply Nat.ltb_ge in Hk. lia.
    - destruct keys as [|k keys]; [|by left]. right; right.
      intros x Hx. apply Hlist. simpl.
      destruct (configuration_data st) as [| | | | |m]; try done.
      simpl in *. destruct (m !! new_key); by simplify_eq. }
  unfold reads_added in *.
  destruct (_get_loop (configuration_data st) _) as [[| | | | l |]|]; by rewrite Hread.
Qed.

End AddThenGetStore.

Lemma add_then_get_witness :
  reads_added (Ok (VList [VInt 1; VInt 2]))
    (fst (@get no_files (Some "a.b") None (store_of (tree_a_b [1; 2; 3])))) (VInt 3).
Proof.
  apply (@add_then_get no_files (store_of (tree_a_b [1; 2])) _ "a.b" (VInt 3)).
  - discriminate.
  - vm_compute. reflexivity.
  - left. vm_compute. lia.
Defined.

(** C7 fails on the empty key: [add("", 5)] on the empty tree succeeds and
    stores [5] under the key [""]; nothing was there before; and [get("")]
    then returns the whole tree, not [5]. *)
Lemma add_then_get_empty_key :
  add "" (VInt 5) false (store_of (VDict ∅))
    = (Ok self, store_of (VDict {[ "" := VInt 5 ]})) /\
  fst (_get "" (store_of (VDict ∅))) = Err (KeyError (VStr "")) /\
  @get no_files (Some "") None (store_of (VDict {[ "" := VInt 5 ]}))
    = (Ok (VDict {[ "" := VInt 5 ]}), store_of (VDict {[ "" := VInt 5 ]})) /\
  VDict {[ "" := VInt 5 ]} <> VInt 5.
Proof. repeat split; try (vm_compute; reflexivity). discriminate. Qed.

(** ** [add] and an existing key *)

Section Duplicates.
Variables (new_key : string) (value : pyval).

(** Along dicts, the walk of [add] without [replace] raises for an
    existing key exactly when a value that is no list is at the path; at the
    target itself this needs the flag, which the last turn of the loop
    sets. *)
Lemma add_loop_duplicate (keys : list string) (current_data : pyval) (is_key_exist : bool) :
  mappings_along current_data keys = true ->
  (keys = [] ->
   forall x, getitem current_data (VStr new_key) = Ok x -> isinstance_list x = false ->
             is_key_exist = true) ->
  snd (add_loop current_data keys new_key value false is_key_exist)
    = Some (RuntimeError ("Key " ++ new_key ++ " already exist")) <->
  exists x, _get_loop current_data (keys ++ [new_key]) = Ok x /\ isinstance_list x = false.
Proof.
  revert current_data is_key_exist.
  induction keys as [|chunk keys IH]; intros current_data is_key_exist Hmaps Hflag;
    destruct (mappings_along_dict _ _ Hmaps) as [m ->]; simpl in *.
  - rewrite add_target_dict. simpl.
    destruct (m !! new_key) as [x|] eqn:Hx.
    + destruct x as [| | | | l |];
        try (rewrite (Hflag eq_refl _ eq_refl eq_refl); split; [eauto|done]).
      split; [done|]. by intros (x & [= <-] & ?).
    + split; [done|]. by intros (x & ? & ?).
  - destruct (m !! chunk) as [child|] eqn:Hchunk.
    + destruct (mappings_along_dict _ _ Hmaps) as [mc ->].
      rewrite (add_step_dict _ _ mc) by done. simpl.
      specialize (IH (VDict mc)
        (if bool_decide (is_Some (mc !! new_key)) then true else is_key_exist) Hmaps).
      destruct (add_loop _ _ _ _ _ _) as [child' raised]. simpl in *.
      apply IH. intros _ x Hx _.
      destruct (mc !! new_key); [done|discriminate].
    + rewrite add_step_missing by done. rewrite add_loop_empty. simpl.
      split; [done|]. by intros (x & ? & ?).
Qed.

End Duplicates.

(** X5: for a key of several chunks whose container path runs through
    dicts, [add] without [replace] raises "Key ... already exist" exactly
    when a value that is no list is at the key. *)
Lemma add_nested_duplicate (st : Kaptan) (key : string) (value : pyval) :
  (1 < length (PyStr.split key))%nat ->
  mappings_along (configuration_data st) (List.removelast (PyStr.split key)) = true ->
  fst (add key value false st)
    = Err (RuntimeError ("Key " ++ List.last (PyStr.split key) EmptyString ++ " already exist")) <->
  exists x, fst (_get key st) = Ok x /\ isinstance_list x = false.
Proof.
  intros Hlen Hmaps.
  destruct (add_unfold st key value false) as (keys & new_key & Hsplit & Hnil & Hk & Hn & Heq).
  rewrite <- Hk in Hmaps. rewrite <- Hn, Heq.
  unfold _get, bind, get_data, lift. simpl. rewrite Hsplit.
  rewrite <- (add_loop_duplicate new_key value keys _ false Hmaps).
  - destruct (snd (add_loop _ _ _ _ _ _)) as [e|]; [|done].
    split; [by intros [= ->]|by intros [= ->]].
  - intros Hnone. apply Hnil in Hnone. apply Nat.ltb_ge in Hnone. lia.
Qed.

(** A key of one chunk never raises it: when the key holds a value that is
    no list, [add] without [replace] returns and the tree is as before. *)
Lemma add_one_chunk_keeps_existing (m : gmap string pyval) (h : option Handler)
    (key : string) (value x : pyval) :
  PyStr.split key = [key] ->
  m !! key = Some x ->
  isinstance_list x = false ->
  add key value false {| configuration_data := VDict m; handler := h |}
    = (Ok self, {| configuration_data := VDict m; handler := h |}).
Proof.
  intros Hsplit Hx Hlist. unfold add. rewrite Hsplit. simpl.
  rewrite add_target_dict, Hx. by destruct x.
Qed.

(** C2, where the code departs from it: on [{"a": 1}], [add("a", 2)] finds
    the key [a] with a value that is no list, yet raises nothing and leaves
    the tree as it is; under a second chunk the same collision is raised. *)
Theorem add_top_level_duplicate_not_raised :
  add "a" (VInt 2) false (store_of (VDict {[ "a" := VInt 1 ]}))
    = (Ok self, store_of (VDict {[ "a" := VInt 1 ]})) /\
  add "c.a" (VInt 2) false (store_of (VDict {[ "c" := VDict {[ "a" := VInt 1 ]} ]}))
    = (Err (RuntimeError "Key a already exist"),
       store_of (VDict {[ "c" := VDict {[ "a" := VInt 1 ]} ]})).
Proof. split; vm_compute; reflexivity. Qed.

(** ** Writing: [remove] *)

(** The end of [remove] on a dict, case by case. *)
Lemma remove_target_dict (m : gmap string pyval) (exact_key : string) (index : pyval) :
  remove_target (VDict m) exact_key index =
    match m !! exact_key with
    | None => (VDict m, Some (KeyError (VStr exact_key)))
    | Some x =>
        match as_index index, x with
        | Some i, VList l =>
            match norm_index (length l) i with
            | Some n => (VDict (<[exact_key := VList (delete n l)]> m), None)
            | None => (VDict m, Some IndexError)
            end
        | _, _ => (VDict (delete exact_key m), None)
        end
    end.
Proof.
  unfold remove_target, delitem, list_pop. simpl.
  destruct (m !! exact_key) as [x|] eqn:Hx; simpl.
  - destruct (as_index index) as [i|]; simpl; rewrite ?Hx; [|done].
    destruct x; simpl; rewrite ?Hx; try done.
    by destruct (norm_index _ i).
  - destruct (as_index index); simpl; by rewrite ?Hx.
Qed.

(** The walk of [remove] creates nothing: at a missing key it raises
    [KeyError] for that chunk. *)
Lemma remove_loop_missing (m : gmap string pyval) (chunk : string) (keys : list string)
    (exact_key : string) (index : pyval) :
  m !! chunk = None ->
  remove_loop (VDict m) (chunk :: keys) exact_key index
    = (VDict m, Some (KeyError (VStr chunk))).
Proof. intros Hnone. simpl. by rewrite Hnone. Qed.

(** When [remove] raises, the tree is as before. *)
Lemma remove_loop_raises_unchanged (keys : list string) (current_data : pyval)
    (exact_key : string) (index : pyval) (e : exn) :
  snd (remove_loop current_data keys exact_key index) = Some e ->
  fst (remove_loop current_data keys exact_key index) = current_data.
Proof.
  revert current_data.
  induction keys as [|chunk keys IH]; intros current_data; simpl.
  - destruct current_data as [| | | | |m]; try (by destruct index).
    rewrite remove_target_dict.
    destruct (m !! exact_key) as [x|]; [|done].
    destruct (as_index index) as [i|], x; try done.
    by destruct (norm_index _ i).
  - destruct (getitem current_data (VStr chunk)) as [child|e'] eqn:Hget; [|done].
    specialize (IH child).
    destruct (remove_loop child keys exact_key index) as [child' raised]. simpl in *.
    intros Hraised. rewrite (IH Hraised).
    destruct current_data as [| | | | |m]; try done. simpl in *.
    destruct (m !! chunk) eqn:Hchunk; [|done].
    injection Hget as ->. by rewrite insert_id.
Qed.

(** A key of one chunk is walked before the target is looked up: [remove]
    works inside the node under the key, on the same key again. *)
Lemma remove_one_chunk (m : gmap string pyval) (h : option Handler)
    (key : string) (index child : pyval) :
  PyStr.split key = [key] ->
  m !! key = Some child ->
  remove key index {| configuration_data := VDict m; handler := h |}
    = (match snd (remove_target child key index) with
       | Some e => Err e
       | None => Ok self
       end,
       {| configuration_data := VDict (<[key := fst (remove_target child key index)]> m);
          handler := h |}).
Proof.
  intros Hsplit Hchild. unfold remove. rewrite Hsplit. simpl. rewrite Hchild.
  by destruct (remove_target child key index).
Qed.

(** C5, where the code departs from it: [remove("a")] does not delete the
    key [a] of the tree.  On [{"a": {"a": 5}, "b": 2}] it deletes the [a]
    inside; on [{"a": 1}] it raises [TypeError]; on [{"a": {}}] it raises
    [KeyError] though [a] is there.  With a second chunk the target key is
    deleted from its dict. *)
Theorem remove_top_level_key_not_deleted :
  remove "a" VNone (store_of (VDict {[ "a" := VDict {[ "a" := VInt 5 ]}; "b" := VInt 2 ]}))
    = (Ok self, store_of (VDict {[ "a" := VDict ∅; "b" := VInt 2 ]})) /\
  remove "a" VNone (store_of (VDict {[ "a" := VInt 1 ]}))
    = (Err TypeError, store_of (VDict {[ "a" := VInt 1 ]})) /\
  remove "a" VNone (store_of (VDict {[ "a" := VDict ∅ ]}))
    = (Err (KeyError (VStr "a")), store_of (VDict {[ "a" := VDict ∅ ]})) /\
  remove "c.a" VNone (store_of (VDict {[ "c" := VDict {[ "a" := VInt 1 ]} ]}))
    = (Ok self, store_of (VDict {[ "c" := VDict ∅ ]})).
Proof. repeat split; vm_compute; reflexivity. Qed.

(** [as_index] answers exactly on the instances of [int]. *)
Lemma as_index_isinstance_int (v : pyval) :
  is_Some (as_index v) <-> isinstance_int v = true.
Proof. destruct v; simpl; split; try done; by intros [? [=]]. Qed.

(** ** Strings as sequences *)

(** A [str] is a [Sequence] for [_get]: a chunk after a string node is read
    as an index into it, so a string is not returned as a scalar is. *)
Lemma get_indexes_string :
  _get_loop (VDict {[ "a" := VStr "hello" ]}) ["a"; "0"] = Ok (VStr "h") /\
  _get_loop (VDict {[ "a" := VStr "hello" ]}) ["a"; "-1"] = Ok (VStr "o") /\
  _get_loop (VDict {[ "a" := VStr "hello" ]}) ["a"; "x"] = Err ValueError /\
  _get_loop (VDict {[ "a" := VStr "hello" ]}) ["a"; "9"] = Err IndexError.
Proof. repeat split; vm_compute; reflexivity. Qed.

(** * Further properties *)

(** ** Reading a path in two parts *)

Lemma split_app_dot (p q : string) :
  PyStr.split (p ++ "." ++ q) = (PyStr.split p ++ PyStr.split q)%list.
Proof.
  induction p as [|c p IH]; simpl; [done|].
  destruct (Ascii.eqb c "."); [by rewrite IH|].
  rewrite IH. pose proof (split_not_nil p) as Hne.
  by destruct (PyStr.split p).
Qed.

Lemma get_loop_app (pre suf : list string) (current_data v : pyval) :
  _get_loop current_data pre = Ok v ->
  _get_loop current_data (pre ++ suf) = _get_loop v suf.
Proof.
  revert current_data.
  induction pre as [|chunk pre IH]; intros current_data Hwalk; simpl in *.
  - by injection Hwalk as ->.
  - destruct (isinstance_Mapping current_data) eqn:Hm.
    + destruct (getitem current_data (VStr chunk)); [by apply IH | done].
    + destruct (isinstance_Sequence current_data) eqn:Hs.
      * destruct (PyStr.int chunk); [|done].
        destruct (getitem current_data (VInt z)); [by apply IH | done].
      * injection Hwalk as <-. symmetry. by apply get_loop_scalar.
Qed.

Lemma get_loop_app_err (pre suf : list string) (current_data : pyval) (e : exn) :
  _get_loop current_data pre = Err e ->
  _get_loop current_data (pre ++ suf) = Err e.
Proof.
  revert current_data.
  induction pre as [|chunk pre IH]; intros current_data Hwalk; simpl in *; [done|].
  destruct (isinstance_Mapping current_data).
  - destruct (getitem current_data (VStr chunk)); [by apply IH | done].
  - destruct (isinstance_Sequence current_data); [|done].
    destruct (PyStr.int chunk); [|done].
    destruct (getitem current_data (VInt z)); [by apply IH | done].
Qed.

(** X1: [_get] of a key [p.q] is [_get] of [q] in the node that [_get] of
    [p] returns, and raises what [_get] of [p] raises. *)
Theorem get_composes (st : Kaptan) (p q : string) :
  fst (_get (p ++ "." ++ q) st) =
    match fst (_get p st) with
    | Ok v => fst (_get q {| configuration_data := v; handler := handler st |})
    | Err e => Err e
    end.
Proof.
  unfold _get, bind, get_data, lift. simpl. rewrite split_app_dot.
  destruct (_get_loop (configuration_data st) (PyStr.split p)) as [v|e] eqn:Hp.
  - by apply get_loop_app.
  - by apply get_loop_app_err.
Qed.

(** ** [add] with [replace] *)

Lemma contains_raises (key : string) (obj : pyval) (e : exn) :
  contains key obj = Err e -> e = TypeError.
Proof. destruct obj; simpl; congruence. Qed.

(** A turn of the loop of [add] at a key that is there. *)
Lemma add_step_existing (m : gmap string pyval) (chunk new_key : string) (child : pyval)
    (replace is_key_exist : bool) :
  m !! chunk = Some child ->
  add_step (VDict m) chunk new_key replace is_key_exist =
    match (if negb replace then contains new_key child else Ok false) with
    | Ok found => Ok (VDict m, child, if found then true else is_key_exist)
    | Err e => Err TypeError
    end.
Proof.
  intros Hchunk. unfold add_step. simpl. rewrite Hchunk. simpl.
  destruct replace; simpl; [done|].
  destruct (contains new_key child) as [found|e] eqn:Hfound; simpl; [done|].
  by rewrite (contains_raises _ _ _ Hfound).
Qed.


(** When the walk of [add] raises, the node is as before: nothing is
    created on the way to a failure. *)
Lemma add_loop_raises_unchanged (new_key : string) (value : pyval) (keys : list string)
    (current_data : pyval) (replace is_key_exist : bool) (e : exn) :
  snd (add_loop current_data keys new_key value replace is_key_exist) = Some e ->
  fst (add_loop current_data keys new_key value replace is_key_exist) = current_data.
Proof.
  revert current_data is_key_exist.
  induction keys as [|chunk keys IH]; intros current_data is_key_exist; simpl.
  - destruct (isinstance_Mapping current_data) eqn:Hm;
      [|by rewrite add_target_not_dict].
    destruct current_data as [| | | | |m]; try done.
    rewrite add_target_dict. destruct replace; [done|].
    destruct (m !! new_key) as [x|]; [|done].
    destruct x; try done; by destruct is_key_exist.
  - destruct (isinstance_Mapping current_data) eqn:Hm;
      [|by rewrite add_step_not_dict].
    destruct current_data as [| | | | |m]; try done.
    destruct (m !! chunk) as [child|] eqn:Hchunk.
    + rewrite (add_step_existing _ _ _ child) by done.
      destruct (if negb replace then contains new_key child else Ok false) as [found|e'];
        [|done].
      specialize (IH child (if found then true else is_key_exist)).
      destruct (add_loop child keys new_key value replace _) as [child' raised].
      simpl in *. intros Hraised. rewrite (IH Hraised). by rewrite insert_id.
    + rewrite add_step_missing by done. by rewrite add_loop_empty.
Qed.

Section AddMore.
Context {env : Env}.


End AddMore.


(** X3: when [add] raises, the store is as it was before the call: no dict
    is left behind on the way to a failure. *)
Theorem add_raises_unchanged (st : Kaptan) (key : string) (value : pyval) (replace : bool)
    (e : exn) :
  fst (add key value replace st) = Err e ->
  snd (add key value replace st) = st.
Proof.
  destruct (add_unfold st key value replace) as (keys & new_key & _ & _ & _ & _ & ->).
  simpl.
  destruct (snd (add_loop _ _ _ _ _ _)) as [e'|] eqn:Hraised; [|done].
  intros _. rewrite (add_loop_raises_unchanged _ _ _ _ _ _ _ Hraised).
  by destruct st.
Qed.

Lemma add_raises_unchanged_witness :
  snd (add "a.b" (VInt 2) false (store_of (VDict {[ "a" := VDict {[ "b" := VInt 1 ]} ]})))
    = store_of (VDict {[ "a" := VDict {[ "b" := VInt 1 ]} ]}).
Proof.
  apply (add_raises_unchanged _ "a.b" (VInt 2) false (RuntimeError "Key b already exist")).
  vm_compute. reflexivity.
Defined.

(** ** [add], [upsert] and [get] *)

(** On a tree that is a dict and a key of one chunk,
    [add(key, value, replace=True)] does what [upsert(key, value)] does. *)
Theorem add_replace_is_upsert (m : gmap string pyval) (h : option Handler)
    (key : string) (value : pyval) :
  PyStr.split key = [key] ->
  add key value true {| configuration_data := VDict m; handler := h |}
    = upsert key value {| configuration_data := VDict m; handler := h |}.
Proof.
  intros Hsplit. unfold add. rewrite Hsplit. reflexivity.
Qed.

Lemma add_replace_is_upsert_witness :
  add "a" (VInt 2) true (store_of (VDict {[ "a" := VList [VInt 1] ]}))
    = upsert "a" (VInt 2) (store_of (VDict {[ "a" := VList [VInt 1] ]})).
Proof. apply (add_replace_is_upsert _ None "a" (VInt 2)). reflexivity. Defined.

Section UpsertThenGet.
Context {env : Env}.

(** X6: after [upsert(key, value)] has succeeded with a key that has no dot
    and is not empty, [get(key)] returns [value].  ([upsert] does not cut
    the key at dots, [get] does.) *)
Theorem upsert_then_get (st st' : Kaptan) (key : string) (value : pyval) :
  key <> "" ->
  PyStr.split key = [key] ->
  upsert key value st = (Ok self, st') ->
  get (Some key) None st' = (Ok value, st').
Proof.
  intros Hkey Hsplit Hup. rewrite get_unfold by done. rewrite Hsplit.
  unfold upsert, bind, get_data, set_data, ret, raise in Hup.
  destruct (configuration_data st) as [| | | | |m] eqn:Htree; try done.
  injection Hup as <-. simpl. by rewrite lookup_insert_eq.
Qed.

End UpsertThenGet.

Lemma upsert_then_get_witness :
  @get no_files (Some "a") None (store_of (VDict {[ "a" := VInt 2 ]}))
    = (Ok (VInt 2), store_of (VDict {[ "a" := VInt 2 ]})).
Proof.
  apply (@upsert_then_get no_files (store_of (VDict {[ "a" := VList [VInt 1] ]})) _ "a" (VInt 2)).
  - discriminate.
  - reflexivity.
  - vm_compute. reflexivity.
Defined.

(** With a dot in the key, [upsert] stores under the whole key, where
    [get] does not look. *)
Lemma upsert_dotted_key_not_read :
  upsert "a.b" (VInt 1) (store_of (VDict ∅))
    = (Ok self, store_of (VDict {[ "a.b" := VInt 1 ]})) /\
  @get no_files (Some "a.b") None (store_of (VDict {[ "a.b" := VInt 1 ]}))
    = (Err (KeyError (VStr "a.b")), store_of (VDict {[ "a.b" := VInt 1 ]})) /\
  _get_loop (VDict {[ "a.b" := VInt 1 ]}) ["a"; "b"] = Err (KeyError (VStr "a")).
Proof. repeat split; vm_compute; reflexivity. Qed.

(** ** [remove], then [get] *)

(** The walk of [remove] succeeds through dicts only. *)
Lemma remove_loop_step (chunk : string) (keys : list string) (current_data current_data' : pyval)
    (exact_key : string) (index : pyval) :
  remove_loop current_data (chunk :: keys) exact_key index = (current_data', None) ->
  exists m child child',
    current_data = VDict m /\ m !! chunk = Some child /\
    remove_loop child keys exact_key index = (child', None) /\
    current_data' = VDict (<[chunk := child']> m).
Proof.
  simpl. destruct current_data as [| | | s | l | m]; try done.
  simpl. destruct (m !! chunk) as [child|] eqn:Hchunk; [|done].
  destruct (remove_loop child keys exact_key index) as [child' raised] eqn:Hloop.
  intros [= <- ->]. by exists m, child, child'.
Qed.

Lemma remove_loop_then_get (keys : list string) (current_data current_data' : pyval)
    (exact_key : string) (index : pyval) :
  as_index index = None ->
  remove_loop current_data keys exact_key index = (current_data', None) ->
  _get_loop current_data' (keys ++ [exact_key]) = Err (KeyError (VStr exact_key)).
Proof.
  intros Hindex. revert current_data current_data'.
  induction keys as [|chunk keys IH]; intros current_data current_data' Hrem.
  - simpl in Hrem. destruct current_data as [| | | | |m];
      try (unfold remove_target in Hrem; rewrite Hindex in Hrem; done).
    rewrite remove_target_dict, Hindex in Hrem.
    destruct (m !! exact_key) as [x|]; [|done].
    injection Hrem as <-. simpl. by rewrite lookup_delete_eq.
  - apply remove_loop_step in Hrem as (m & child & child' & -> & Hchunk & Hloop & ->).
    simpl. rewrite lookup_insert_eq. by apply (IH _ _ Hloop).
Qed.

Lemma remove_loop_pop_then_get (keys : list string) (current_data current_data' : pyval)
    (exact_key : string) (index : pyval) (i : Z) (l : list pyval) :
  as_index index = Some i ->
  remove_loop current_data keys exact_key index = (current_data', None) ->
  _get_loop current_data (keys ++ [exact_key]) = Ok (VList l) ->
  exists n,
    norm_index (length l) i = Some n /\
    _get_loop current_data' (keys ++ [exact_key]) = Ok (VList (delete n l)).
Proof.
  intros Hindex. revert current_data current_data'.
  induction keys as [|chunk keys IH]; intros current_data current_data' Hrem Hget.
  - simpl in Hrem. destruct current_data as [| | | | |m];
      try (unfold remove_target in Hrem; rewrite Hindex in Hrem; done).
    rewrite remove_target_dict, Hindex in Hrem. simpl in Hget.
    destruct (m !! exact_key) as [x|]; [|done].
    injection Hget as ->.
    destruct (norm_index (length l) i) as [n|]; [|done].
    injection Hrem as <-. exists n. split; [done|].
    simpl. by rewrite lookup_insert_eq.
  - apply remove_loop_step in Hrem as (m & child & child' & -> & Hchunk & Hloop & ->).
    simpl in Hget. rewrite Hchunk in Hget.
    destruct (IH _ _ Hloop Hget) as (n & Hn & Hread).
    exists n. split; [done|]. simpl. by rewrite lookup_insert_eq.
Qed.

(** [remove] in terms of its loop, for a key of several chunks. *)
Lemma remove_unfold (st : Kaptan) (key : string) (index : pyval) :
  (1 < length (PyStr.split key))%nat ->
  exists (keys : list string) (exact_key : string),
    PyStr.split key = (keys ++ [exact_key])%list /\
    remove key index st =
      (match snd (remove_loop (configuration_data st) keys exact_key index) with
       | Some e => Err e
       | None => Ok self
       end,
       {| configuration_data :=
            fst (remove_loop (configuration_data st) keys exact_key index);
          handler := handler st |}).
Proof.
  intros Hlen. apply Nat.ltb_lt in Hlen.
  exists (List.removelast (PyStr.split key)), (List.last (PyStr.split key) EmptyString).
  split; [apply split_removelast_last|].
  unfold remove. rewrite Hlen. by destruct (remove_loop _ _ _ _).
Qed.

Lemma split_several_not_empty (key : string) :
  (1 < length (PyStr.split key))%nat -> key <> "".
Proof. intros Hlen ->. simpl in Hlen. lia. Qed.

Section RemoveThenGet.
Context {env : Env}.

(** X7: after [remove(key)] with a key of several chunks has succeeded, with
    no index (or an index that is no integer), [get(key)] raises
    [KeyError(key)]. *)
Theorem remove_then_get (st st' : Kaptan) (key : string) (index : pyval) :
  (1 < length (PyStr.split key))%nat ->
  as_index index = None ->
  remove key index st = (Ok self, st') ->
  get (Some key) None st' = (Err (KeyError (VStr key)), st').
Proof.
  intros Hlen Hindex Hrem.
  destruct (remove_unfold st key index Hlen) as (keys & exact_key & Hsplit & Heq).
  rewrite Heq in Hrem.
  destruct (remove_loop _ _ _ _) as [tree' raised] eqn:Hloop. simpl in Hrem.
  destruct raised as [e|]; [done|]. injection Hrem as <-.
  rewrite get_unfold by by apply split_several_not_empty.
  simpl. rewrite Hsplit.
  by rewrite (remove_loop_then_get _ _ _ _ _ Hindex Hloop).
Qed.

(** X8: after [remove(key, index)] with a key of several chunks and an
    integer index has succeeded where [get(key)] gave a list, [get(key)]
    gives that list without the item at the index, a negative index counting
    from the end; the index was in range. *)
Theorem remove_index_then_get (st st' : Kaptan) (key : string) (index : pyval)
    (i : Z) (l : list pyval) :
  (1 < length (PyStr.split key))%nat ->
  as_index index = Some i ->
  get (Some key) None st = (Ok (VList l), st) ->
  remove key index st = (Ok self, st') ->
  exists n,
    norm_index (length l) i = Some n /\
    get (Some key) None st' = (Ok (VList (delete n l)), st').
Proof.
  intros Hlen Hindex Hget Hrem.
  pose proof (split_several_not_empty key Hlen) as Hkey.
  destruct (remove_unfold st key index Hlen) as (keys & exact_key & Hsplit & Heq).
  rewrite Heq in Hrem.
  destruct (remove_loop _ _ _ _) as [tree' raised] eqn:Hloop. simpl in Hrem.
  destruct raised as [e|]; [done|]. injection Hrem as <-.
  rewrite get_unfold in Hget by done. rewrite Hsplit in Hget.
  destruct (_get_loop (configuration_data st) (keys ++ [exact_key])) as [v|e] eqn:Hwalk.
  - injection Hget as ->.
    destruct (remove_loop_pop_then_get _ _ _ _ _ _ _ Hindex Hloop Hwalk) as (n & Hn & Hread).
    exists n. split; [done|].
    rewrite get_unfold by done. simpl. by rewrite Hsplit, Hread.
  - by destruct e.
Qed.

End RemoveThenGet.

Lemma remove_then_get_witness :
  @get no_files (Some "a.b") None (store_of (VDict {[ "a" := VDict ∅ ]}))
    = (Err (KeyError (VStr "a.b")), store_of (VDict {[ "a" := VDict ∅ ]})).
Proof.
  apply (@remove_then_get no_files (store_of (tree_a_b [2; 3])) _ "a.b" VNone).
  - vm_compute. lia.
  - reflexivity.
  - vm_compute. reflexivity.
Defined.

Lemma remove_index_then_get_witness :
  exists n,
    norm_index (length [VInt 1; VInt 2; VInt 3]) (-1) = Some n /\
    @get no_files (Some "a.b") None (store_of (tree_a_b [1; 2]))
      = (Ok (VList (delete n [VInt 1; VInt 2; VInt 3])), store_of (tree_a_b [1; 2])).
Proof.
  apply (@remove_index_then_get no_files (store_of (tree_a_b [1; 2; 3])) _ "a.b" (VInt (-1))).
  - vm_compute. lia.
  - reflexivity.
  - vm_compute. reflexivity.
  - vm_compute. reflexivity.
Defined.

(** X9: when [remove] raises, the store is as it was before the call. *)
Theorem remove_raises_unchanged (st : Kaptan) (key : string) (index : pyval) (e : exn) :
  fst (remove key index st) = Err e ->
  snd (remove key index st) = st.
Proof.
  unfold remove.
  destruct (if (1 <? length (PyStr.split key))%nat
            then (List.last (PyStr.split key) EmptyString, List.removelast (PyStr.split key))
            else (List.hd EmptyString (PyStr.split key), PyStr.split key))
    as [exact_key keys].
  pose proof (remove_loop_raises_unchanged keys (configuration_data st) exact_key index) as Hsame.
  destruct (remove_loop _ _ _ _) as [tree' raised]. simpl in *.
  destruct raised as [e'|]; [|done].
  intros _. rewrite (Hsame e' eq_refl). by destruct st.
Qed.

Lemma remove_raises_unchanged_witness :
  snd (remove "a.b" (VInt 5) (store_of (tree_a_b [1; 2]))) = store_of (tree_a_b [1; 2]).
Proof.
  apply (remove_raises_unchanged _ "a.b" (VInt 5) IndexError).
  vm_compute. reflexivity.
Defined.

(** ** [import_config] and [export] *)

(** Every name in [HANDLER_EXT] names a handler of [HANDLER_MAP], and never
    the dict handler. *)
Lemma HANDLER_EXT_handler (ext name : string) :
  HANDLER_EXT !! ext = Some name ->
  exists h, HANDLER_MAP !! name = Some h /\ h <> DictHandler.
Proof.
  intros Hext. apply elem_of_list_to_map_2 in Hext.
  repeat (apply elem_of_cons in Hext as [[= -> ->]|Hext];
          [eexists; split; [reflexivity|discriminate]|]).
  by apply elem_of_nil in Hext.
Qed.

Section ImportMore.
Context {env : Env}.

(** Case analysis on the next file test or load in the goal. *)
Ltac case_isfile :=
  match goal with |- context [isfile ?p] => destruct (isfile p); simpl end.
Ltac case_load :=
  match goal with
  | |- context [handler_load ?h ?d] => destruct (handler_load h d); simpl
  | |- context [format_load ?h ?d] => destruct (format_load h d); simpl
  end.

Lemma handler_load_format (h : Handler) (data : pyval) :
  h <> DictHandler -> handler_load h data = format_load h data.
Proof. by destruct h. Qed.

(** X11: for a string that names a file which is no Python file, on a store
    with no handler, the extension decides: an extension outside
    [HANDLER_EXT] is refused with "Unable to determine handler", nothing is
    read and the store is as before; an extension of the table selects its
    handler, which stays selected even when reading or loading then fails,
    and the tree is replaced only by what the handler loads from the text
    of the file. *)
Theorem import_config_file_by_extension (st : Kaptan) (value : string) :
  isfile value = true ->
  _is_python_file value = false ->
  handler st = None ->
  match HANDLER_EXT !! PyStr.splitext_ext value with
  | None =>
      import_config (SrcStr value) st
        = (Err (RuntimeError "Unable to determine handler"), st)
  | Some name =>
      exists h,
        HANDLER_MAP !! name = Some h /\
        import_config (SrcStr value) st =
          match read value with
          | Err e => (Err e, {| configuration_data := configuration_data st; handler := Some h |})
          | Ok text =>
              match format_load h (VStr text) with
              | Ok tree => (Ok self, {| configuration_data := tree; handler := Some h |})
              | Err e =>
                  (Err e, {| configuration_data := configuration_data st; handler := Some h |})
              end
          end
  end.
Proof.
  intros Hfile Hpy Hnone.
  unfold import_config, bind, get_handler, set_handler, set_data, lift, ret, raise.
  rewrite Hfile, Hpy. simpl. rewrite Hnone. simpl.
  destruct (HANDLER_EXT !! PyStr.splitext_ext value) as [name|] eqn:Hext; simpl; [|done].
  destruct (HANDLER_EXT_handler _ _ Hext) as (h & Hmap & Hdict).
  exists h. split; [done|]. rewrite Hmap. simpl.
  destruct (read value) as [text|e]; simpl; [|done].
  rewrite handler_load_format by done.
  by destruct (format_load h (VStr text)).
Qed.

(** X12: a handler the store already has is kept by [import_config] of any
    string that is no Python file, whether the call succeeds or raises: the
    extension of a file does not override it. *)
Theorem import_config_keeps_handler (st : Kaptan) (value : string) (h : Handler) :
  _is_python_file value = false ->
  handler st = Some h ->
  handler (snd (import_config (SrcStr value) st)) = Some h.
Proof.
  intros Hpy Hsome.
  unfold import_config, bind, get_handler, set_handler, set_data, lift, ret, raise.
  rewrite Hpy.
  destruct (isfile value); simpl; rewrite ?Hsome; simpl.
  - destruct (read value) as [text|e]; simpl; rewrite ?Hsome; simpl; [|done].
    by destruct (handler_load h (VStr text)).
  - by destruct (handler_load h (VStr value)).
Qed.

(** X13: a string with a [py] extension, or beside which a file with [.py]
    added exists, always selects the Python file handler, whatever handler
    the store had and even if the string itself names a file; the path
    loaded is the absolute path with [.py] added when it was missing, and
    [IOError] is raised when no file is there. *)
Theorem import_config_python_file (st : Kaptan) (value : string) :
  _is_python_file value = true ->
  let path := abspath (if PyStr.endswith value ".py" then value else value ++ ".py") in
  handler (snd (import_config (SrcStr value) st)) = Some PyFileHandler /\
  fst (import_config (SrcStr value) st) =
    if isfile path
    then match format_load PyFileHandler (VStr path) with
         | Ok _ => Ok self
         | Err e => Err e
         end
    else Err (IOError ("File " ++ path ++ " not found.")).
Proof.
  intros Hpy path.
  unfold import_config, bind, get_handler, set_handler, set_data, lift, ret, raise.
  rewrite Hpy, andb_false_r. simpl. fold path.
  destruct (isfile path); simpl; [|done].
  by destruct (format_load PyFileHandler (VStr path)).
Qed.

(** X14: when [import_config] raises, the tree is the one the store had:
    only the handler may have changed. *)
Theorem import_config_raises_keeps_tree (st : Kaptan) (value : config_source) (e : exn) :
  fst (import_config value st) = Err e ->
  configuration_data (snd (import_config value st)) = configuration_data st.
Proof.
  unfold import_config, bind, get_handler, set_handler, set_data, lift, ret, raise.
  destruct value as [d|value]; simpl; [done|].
  destruct (isfile value && negb (_is_python_file value)); simpl.
  - destruct (handler st) as [h|] eqn:Hh; simpl; rewrite ?Hh; simpl.
    + destruct (read value) as [text|e']; simpl; rewrite ?Hh; simpl; [|done].
      by destruct (handler_load h (VStr text)).
    + destruct (HANDLER_EXT !! PyStr.splitext_ext value ≫= _) as [h'|]; simpl; [|done].
      destruct (read value) as [text|e']; simpl; [|done].
      by destruct (handler_load h' (VStr text)).
  - destruct (_is_python_file value); simpl.
    + case_isfile; [|done]. by case_load.
    + destruct (handler st) as [h|] eqn:Hh; simpl; rewrite ?Hh; simpl; [|done].
      by destruct (handler_load h (VStr value)).
Qed.

(** X15: after [import_config] has succeeded the store has a handler, and
    [export()] with no argument dumps the tree with it. *)
Theorem import_config_then_export (st st' : Kaptan) (value : config_source) :
  import_config value st = (Ok self, st') ->
  exists h,
    handler st' = Some h /\
    export None st' = (handler_dump h (configuration_data st'), st').
Proof.
  unfold import_config, export, bind, get_handler, get_data, set_handler, set_data, lift,
    ret, raise.
  destruct value as [d|value]; simpl.
  - intros [= <-]. by exists DictHandler.
  - destruct (isfile value && negb (_is_python_file value)); simpl.
    + destruct (handler st) as [h|] eqn:Hh; simpl; rewrite ?Hh; simpl.
      * destruct (read value) as [text|e']; simpl; rewrite ?Hh; simpl; [|done].
        destruct (handler_load h (VStr text)); simpl; [|done].
        intros [= <-]. by exists h.
      * destruct (HANDLER_EXT !! PyStr.splitext_ext value ≫= _) as [h'|]; simpl; [|done].
        destruct (read value) as [text|e']; simpl; [|done].
        destruct (handler_load h' (VStr text)); simpl; [|done].
        intros [= <-]. by exists h'.
    + destruct (_is_python_file value); simpl.
      * case_isfile; [|done]. case_load; [|done].
        intros [= <-]. by exists PyFileHandler.
      * destruct (handler st) as [h|] eqn:Hh; simpl; rewrite ?Hh; simpl; [|done].
        destruct (handler_load h (VStr value)); simpl; [|done].
        intros [= <-]. by exists h.
Qed.

(** X16: a store made by [Kaptan(handler)] has the empty tree: [get] of any
    key that is not empty raises [KeyError(key)], and returns the default
    when one is given. *)
Theorem fresh_store_is_empty (name : option string) (st : Kaptan) (key : string) (d : pyval) :
  __init__ name = Ok st ->
  key <> "" ->
  get (Some key) None st = (Err (KeyError (VStr key)), st) /\
  get (Some key) (Some d) st = (Ok d, st).
Proof.
  intros Hinit Hkey.
  assert (configuration_data st = VDict ∅) as Htree.
  { unfold __init__ in Hinit.
    destruct name as [[|c name]|]; try by injection Hinit as <-.
    destruct (HANDLER_MAP !! String c name); [by injection Hinit as <-|done]. }
  rewrite !get_unfold by done. rewrite Htree.
  pose proof (split_not_nil key) as Hne.
  destruct (PyStr.split key) as [|chunk chunks]; [done|].
  done.
Qed.

End ImportMore.

Lemma import_config_file_by_extension_witness :
  exists h,
    HANDLER_MAP !! "json" = Some h /\
    @import_config some_files (SrcStr "conf.json") (store_of (VDict ∅))
      = (Ok self, {| configuration_data := VList [VStr "{}"]; handler := Some h |}).
Proof.
  exact (@import_config_file_by_extension some_files (store_of (VDict ∅)) "conf.json"
           eq_refl eq_refl eq_refl).
Defined.

Lemma import_config_keeps_handler_witness :
  handler (snd (@import_config some_files (SrcStr "conf.json")
                  {| configuration_data := VDict ∅; handler := Some YamlHandler |}))
    = Some YamlHandler.
Proof.
  apply (@import_config_keeps_handler some_files).
  - reflexivity.
  - reflexivity.
Defined.

Lemma import_config_python_file_witness :
  handler (snd (@import_config some_files (SrcStr "settings")
                  {| configuration_data := VDict ∅; handler := Some JsonHandler |}))
    = Some PyFileHandler /\
  fst (@import_config some_files (SrcStr "settings")
         {| configuration_data := VDict ∅; handler := Some JsonHandler |})
    = Ok self.
Proof.
  exact (@import_config_python_file some_files
           {| configuration_data := VDict ∅; handler := Some JsonHandler |} "settings" eq_refl).
Defined.

Lemma import_config_raises_keeps_tree_witness :
  configuration_data (snd (@import_config no_files (SrcStr "settings.py")
                             (store_of (VDict {[ "a" := VInt 1 ]}))))
    = VDict {[ "a" := VInt 1 ]}.
Proof.
  apply (@import_config_raises_keeps_tree no_files (store_of (VDict {[ "a" := VInt 1 ]}))
           (SrcStr "settings.py") (IOError "File /settings.py not found.")).
  vm_compute. reflexivity.
Defined.

Lemma import_config_then_export_witness :
  exists h,
    handler {| configuration_data := VDict {[ "a" := VInt 1 ]}; handler := Some DictHandler |}
      = Some h /\
    @export no_files None
      {| configuration_data := VDict {[ "a" := VInt 1 ]}; handler := Some DictHandler |}
      = (@handler_dump no_files h (VDict {[ "a" := VInt 1 ]}),
         {| configuration_data := VDict {[ "a" := VInt 1 ]}; handler := Some DictHandler |}).
Proof.
  apply (@import_config_then_export no_files (store_of (VDict ∅))
           {| configuration_data := VDict {[ "a" := VInt 1 ]}; handler := Some DictHandler |}
           (SrcDict {[ "a" := VInt 1 ]})).
  reflexivity.
Defined.

Lemma fresh_store_is_empty_witness :
  @get no_files (Some "a.b") None {| configuration_data := VDict ∅; handler := Some JsonHandler |}
    = (Err (KeyError (VStr "a.b")),
       {| configuration_data := VDict ∅; handler := Some JsonHandler |}) /\
  @get no_files (Some "a.b") (Some (VInt 0))
       {| configuration_data := VDict ∅; handler := Some JsonHandler |}
    = (Ok (VInt 0), {| configuration_data := VDict ∅; handler := Some JsonHandler |}).
Proof.
  apply (@fresh_store_is_empty no_files (Some "json")).
  - reflexivity.
  - discriminate.
Defined.

(** ** The command line *)

Lemma split_on_not_nil (sep : ascii) (s : string) : split_on sep s <> [].
Proof.
  induction s as [|c s IH]; simpl; [discriminate|].
  destruct (Ascii.eqb c sep); [discriminate|].
  destruct (split_on sep s); discriminate.
Qed.

(** [split_on] with a dot is the [split] of the keys. *)
Lemma split_on_dot (s : string) : split_on "." s = PyStr.split s.
Proof.
  induction s as [|c s IH]; simpl; [done|]. rewrite IH. done.
Qed.

(** One argument in [OrderedDict(list(get_handlers()))]: it is put in the
    dict when it has at most one colon, and makes the whole fail when it
    has more. *)
Lemma ordered_dict_cons (d : list (option string * option string)) (f : string)
    (files : list string) :
  ((length (split_on ":" f) <= 2)%nat /\
   exists k v, OrderedDict_from d (get_handlers (f :: files))
               = OrderedDict_from (ordered_set k v d) (get_handlers files)) \/
  ((2 < length (split_on ":" f))%nat /\
   OrderedDict_from d (get_handlers (f :: files)) = Err ValueError).
Proof.
  pose proof (split_on_not_nil ":" f) as Hne.
  unfold get_handlers. rewrite fmap_cons.
  destruct (split_on ":" f) as [|a [|b [|c rest]]]; simpl; [done| | |].
  - left. split; [lia|]. by eexists _, _.
  - left. split; [lia|]. by eexists _, _.
  - right. split; [lia|done].
Qed.

(** X17: building [config_handlers] in [main] raises [ValueError] exactly
    when some argument has two or more colons (it is cut in more than two
    parts). *)
Theorem config_handlers_colons (files : list string) :
  OrderedDict (get_handlers files) = Err ValueError <->
  exists f, f ∈ files /\ (2 < length (split_on ":" f))%nat.
Proof.
  unfold OrderedDict. generalize (@nil (option string * option string)) as d.
  induction files as [|f files IH]; intros d.
  - simpl. split; [done|]. intros (f & Hf & _). by apply elem_of_nil in Hf.
  - destruct (ordered_dict_cons d f files) as [(Hlen & k & v & ->)|(Hlen & ->)].
    + rewrite IH. split.
      * intros (g & Hg & Hg2). exists g. split; [by right|done].
      * intros (g & Hg & Hg2). apply elem_of_cons in Hg as [->|Hg]; [lia|by exists g].
    + split; [|done]. intros _. exists f. split; [by left|done].
Qed.

(** X18: for an argument of [main] that is not [-], with a [--handler] that
    names a handler, the store is always created with a handler.  The text
    after the colon, or the extension of the file when there is none, is
    looked up in [HANDLER_EXT]: on a hit the store gets the handler that
    [HANDLER_MAP] has for the name found; on a miss, [dict] and [file]
    included, it gets the handler of [--handler]. *)
Theorem main_handler_for_file (args_handler config_file : string) (handler : option string)
    (h0 : Handler) :
  config_file <> "-" ->
  HANDLER_MAP !! args_handler = Some h0 ->
  exists h,
    __init__ (Some (main_handler args_handler config_file handler))
      = Ok {| configuration_data := VDict ∅; handler := Some h |} /\
    match HANDLER_EXT !! or_else handler (PyStr.splitext_ext config_file) with
    | Some name => HANDLER_MAP !! name = Some h
    | None => h = h0
    end.
Proof.
  intros Hfile Hargs. unfold main_handler.
  apply String.eqb_neq in Hfile. rewrite Hfile. simpl.
  destruct (HANDLER_EXT !! or_else handler (PyStr.splitext_ext config_file))
    as [name|] eqn:Hext; simpl.
  - destruct (HANDLER_EXT_handler _ _ Hext) as (h & Hmap & _).
    exists h. split; [|done]. unfold __init__.
    destruct name as [|c name]; [done|]. by rewrite Hmap.
  - exists h0. split; [|done]. unfold __init__.
    destruct args_handler as [|c name]; [done|]. by rewrite Hargs.
Qed.

Lemma main_handler_for_file_witness :
  (exists h,
     __init__ (Some (main_handler "json" "conf.txt" (Some "yml")))
       = Ok {| configuration_data := VDict ∅; handler := Some h |} /\
     HANDLER_MAP !! "yaml" = Some h) /\
  (exists h,
     __init__ (Some (main_handler "json" "conf.ini" None))
       = Ok {| configuration_data := VDict ∅; handler := Some h |} /\
     HANDLER_MAP !! "ini" = Some h) /\
  (exists h,
     __init__ (Some (main_handler "json" "conf.txt" (Some "dict")))
       = Ok {| configuration_data := VDict ∅; handler := Some h |} /\
     h = JsonHandler).
Proof.
  split; [|split].
  - exact (main_handler_for_file "json" "conf.txt" (Some "yml") JsonHandler
             ltac:(discriminate) eq_refl).
  - exact (main_handler_for_file "json" "conf.ini" None JsonHandler
             ltac:(discriminate) eq_refl).
  - exact (main_handler_for_file "json" "conf.txt" (Some "dict") JsonHandler
             ltac:(discriminate) eq_refl).
Defined.

(** On standard input the text after the colon is the handler name itself,
    and a name that is no handler makes the constructor raise; an argument
    given twice is kept once, in its first place, with its last handler. *)
Lemma main_handler_stdin :
  main_handler "json" "-" (Some "dict") = "dict" /\
  main_handler "json" "-" None = "json" /\
  __init__ (Some (main_handler "json" "-" (Some "yml"))) = Err (KeyError (VStr "yml")) /\
  OrderedDict (get_handlers ["a.json"; "b:yaml"; "a.json:ini"])
    = Ok [(Some "a.json", Some "ini"); (Some "b", Some "yaml")].
Proof. repeat split; vm_compute; reflexivity. Qed.

Lemma add_nested_duplicate_witness :
  fst (add "c.a" (VInt 2) false (store_of (VDict {[ "c" := VDict {[ "a" := VInt 1 ]} ]})))
    = Err (RuntimeError ("Key " ++ List.last (PyStr.split "c.a") EmptyString ++ " already exist")) <->
  exists x,
    fst (_get "c.a" (store_of (VDict {[ "c" := VDict {[ "a" := VInt 1 ]} ]}))) = Ok x /\
    isinstance_list x = false.
Proof.
  apply (add_nested_duplicate (store_of (VDict {[ "c" := VDict {[ "a" := VInt 1 ]} ]}))
           "c.a" (VInt 2)).
  - vm_compute. lia.
  - reflexivity.
Defined.
